(** * Schema validator and backend selector of angular-async-local-storage

    A shallow embedding of [JSONValidator] (src/lib/src/tokens.ts) and of
    [localDatabaseFactory] (the module that declares [LocalDatabase]), with
    the properties claimed for them.

    JavaScript values are modelled as a tree of JSON-like values in which
    arrays and objects carry the reference that [===] and [Set] compare;
    numbers are IEEE-754 binary64 floats (Rocq's primitive floats); a
    function that may throw returns a [Completion]. *)

From Stdlib Require Import ZArith List String Ascii Bool Lia Floats DecimalString.
From Stdlib Require Uint63.
Import ListNotations.

Set Warnings "-inexact-float,-register-all".

Local Open Scope string_scope.
Local Open Scope list_scope.

(** ** Completions: a call either returns a value or throws *)

Inductive Exception : Type :=
| Error (message : string)
| TypeError (message : string)
| SyntaxError (message : string).

Inductive Completion (A : Type) : Type :=
| Return (a : A)
| Throw (e : Exception).

Arguments Return {A} a.
Arguments Throw {A} e.

Definition bind {A B : Type} (c : Completion A) (k : A -> Completion B) : Completion B :=
  match c with
  | Return a => k a
  | Throw e => Throw e
  end.

Notation "x <- c ;; k" := (bind c (fun x => k))
  (at level 61, c at next level, right associativity).

(** ** JavaScript values *)

(** The data handed to the validator.  [ref] is the identity of an array or
    object: two occurrences of the same object carry the same [ref], two
    objects built separately (for instance by [JSON.parse]) carry different
    ones.  A string is a sequence of code units, one per character.  The list
    of an object holds its own enumerable properties in the order [for-in] and
    [Object.keys] enumerate them. *)
Inductive JSValue : Type :=
| JSUndefined
| JSNull
| JSBoolean (b : bool)
| JSNumber (n : float)
| JSString (s : string)
| JSArray (ref : nat) (elements : list JSValue)
| JSObject (ref : nat) (props : list (string * JSValue)).

(** [typeof v] *)
Definition typeof (v : JSValue) : string :=
  match v with
  | JSUndefined => "undefined"
  | JSNull => "object"
  | JSBoolean _ => "boolean"
  | JSNumber _ => "number"
  | JSString _ => "string"
  | JSArray _ _ => "object"
  | JSObject _ _ => "object"
  end.

(** [Array.isArray(v)] *)
Definition Array_isArray (v : JSValue) : bool :=
  match v with
  | JSArray _ _ => true
  | _ => false
  end.

(** ** Numbers *)

(** [Number.isInteger(x)]: [x] is finite and has no fractional part.  A finite
    double is [m * 2^e]. *)
Definition Number_isInteger (x : float) : bool :=
  match Prim2SF x with
  | S754_zero _ => true
  | S754_finite _ m e => ((0 <=? e) || (Z.pos m mod 2 ^ (- e) =? 0))%Z
  | S754_infinity _ => false
  | S754_nan => false
  end.

(** The Number holding a length (exact below 2^53, which every JavaScript
    string and array length is). *)
Definition Number_of_nat (n : nat) : float :=
  PrimFloat.of_uint63 (Uint63.of_Z (Z.of_nat n)).

(** The relational operators on Numbers; each is false when an operand is NaN. *)
Definition js_lt (x y : float) : bool := PrimFloat.ltb x y.
Definition js_gt (x y : float) : bool := PrimFloat.ltb y x.
Definition js_le (x y : float) : bool := PrimFloat.leb x y.
Definition js_ge (x y : float) : bool := PrimFloat.leb y x.

(** ** Equalities and truthiness *)

(** [a === b] *)
Definition strict_equals (a b : JSValue) : bool :=
  match a, b with
  | JSUndefined, JSUndefined => true
  | JSNull, JSNull => true
  | JSBoolean x, JSBoolean y => Bool.eqb x y
  | JSNumber x, JSNumber y => PrimFloat.eqb x y
  | JSString x, JSString y => String.eqb x y
  | JSArray r _, JSArray r' _ => Nat.eqb r r'
  | JSObject r _, JSObject r' _ => Nat.eqb r r'
  | _, _ => false
  end.

(** SameValueZero, the equality of [Set]: as [===], but NaN equals NaN. *)
Definition SameValueZero (a b : JSValue) : bool :=
  match a, b with
  | JSNumber x, JSNumber y => PrimFloat.eqb x y || (PrimFloat.is_nan x && PrimFloat.is_nan y)
  | _, _ => strict_equals a b
  end.

(** ToBoolean, which [!v] and [if (v)] apply. *)
Definition ToBoolean (v : JSValue) : bool :=
  match v with
  | JSUndefined => false
  | JSNull => false
  | JSBoolean b => b
  | JSNumber n => negb (PrimFloat.eqb n 0%float || PrimFloat.is_nan n)
  | JSString s => negb (String.eqb s "")
  | JSArray _ _ => true
  | JSObject _ _ => true
  end.

(** Reading a field that may be missing yields [undefined]. *)
Definition field (o : option JSValue) : JSValue :=
  match o with
  | Some v => v
  | None => JSUndefined
  end.

(** ** [Set] *)

Definition Set_add (s : list JSValue) (v : JSValue) : list JSValue :=
  if existsb (SameValueZero v) s then s else s ++ [v].

(** [new Set(data)] *)
Definition new_Set (data : list JSValue) : list JSValue :=
  fold_left Set_add data [].

Definition Set_size (s : list JSValue) : nat := List.length s.

(** ** Own properties *)

(** The property name of an array index. *)
Definition index_name (i : nat) : string :=
  NilEmpty.string_of_uint (Nat.to_uint i).

Definition indexed (elements : list JSValue) : list (string * JSValue) :=
  map (fun iv => (index_name (fst iv), snd iv))
      (combine (seq 0 (List.length elements)) elements).

(** The own enumerable properties of a value, as [Object.keys] lists them. *)
Definition enumerable (v : JSValue) : list (string * JSValue) :=
  match v with
  | JSObject _ props => props
  | JSArray _ elements => indexed elements
  | _ => []
  end.

Definition Object_keys (v : JSValue) : list string := map fst (enumerable v).

Fixpoint lookup {A : Type} (k : string) (l : list (string * A)) : option A :=
  match l with
  | [] => None
  | (k', a) :: rest => if String.eqb k k' then Some a else lookup k rest
  end.

(** The own properties of a value: the enumerable ones and, for an array,
    its [length]. *)
Definition own_property (v : JSValue) (p : string) : option JSValue :=
  match v with
  | JSArray _ elements =>
      if String.eqb p "length" then Some (JSNumber (Number_of_nat (List.length elements)))
      else lookup p (indexed elements)
  | _ => lookup p (enumerable v)
  end.

Definition is_some {A : Type} (o : option A) : bool :=
  match o with
  | Some _ => true
  | None => false
  end.

(** [o.hasOwnProperty(p)] is a method call: the method is looked up on [o]
    first.  An own property named hasOwnProperty hides the inherited method,
    and its value (a JSON value or a schema) is not callable. *)
Definition call_hasOwnProperty {A : Type} (own : string -> option A) (p : string)
  : Completion bool :=
  if is_some (own "hasOwnProperty")
  then Throw (TypeError "hasOwnProperty is not a function")
  else Return (is_some (own p)).

(** [data.hasOwnProperty(p)] *)
Definition data_hasOwnProperty (data : JSValue) (p : string) : Completion bool :=
  call_hasOwnProperty (own_property data) p.

(** [data[p]] *)
Definition get (data : JSValue) (p : string) : JSValue :=
  field (own_property data p).

(** ** Schemas *)

(** Modelled from the spec: the declarations of [JSONSchema] and of its six
    interfaces (json-schema.ts) are not among the sources.  A schema is the
    object the validator reads: its [type] tag and the constraints the
    validator looks up, each of which may be missing.  [properties] lists the
    declared properties in enumeration order. *)
Inductive JSONSchema : Type := mkSchema {
  type : JSValue;
  const : option JSValue;
  enum : option (list JSValue);
  maxLength : option float;
  minLength : option float;
  pattern : option string;
  multipleOf : option float;
  maximum : option float;
  exclusiveMaximum : option float;
  minimum : option float;
  exclusiveMinimum : option float;
  items : option JSONSchema;
  maxItems : option float;
  minItems : option float;
  uniqueItems : option bool;
  properties : option (list (string * JSONSchema));
  required : option (list string)
}.

(** [schema.properties.hasOwnProperty(p)] *)
Definition properties_hasOwnProperty (props : list (string * JSONSchema)) (p : string)
  : Completion bool :=
  call_hasOwnProperty (fun k => lookup k props) p.

(** [data.length] of a string or an array *)
Definition length_of (data : JSValue) : float :=
  match data with
  | JSString s => Number_of_nat (String.length s)
  | JSArray _ elements => Number_of_nat (List.length elements)
  | _ => nan
  end.

(** [values.indexOf(x)] *)
Fixpoint indexOf_from (i : Z) (values : list JSValue) (x : JSValue) : Z :=
  match values with
  | [] => (-1)%Z
  | v :: rest => if strict_equals v x then i else indexOf_from (i + 1)%Z rest x
  end.

Definition Array_indexOf (values : list JSValue) (x : JSValue) : Z :=
  indexOf_from 0%Z values x.

(** ** The validator *)

(** [check c ;; k]: the statement [if (!c) { return false; }] followed by [k]. *)
Notation "'check' c ;; k" := (bind c (fun ok : bool => if ok then k else Return false))
  (at level 61, c at next level, right associativity).

Definition validateConst (data : JSValue) (schema : JSONSchema) : bool :=
  if negb (ToBoolean (field (const schema))) then true
  else strict_equals data (field (const schema)).

Definition validateEnum (data : JSValue) (schema : JSONSchema) : bool :=
  match enum schema with
  | None => true
  | Some values => negb (Array_indexOf values data =? -1)%Z
  end.

(** The guard [!Number.isInteger(bound) || bound < 0] of the four length and
    item bounds. *)
Definition not_a_length (bound : float) : bool :=
  negb (Number_isInteger bound) || js_lt bound 0%float.

Section Validator.

(** [new RegExp(pattern).test(data)]: the host's regular expressions.  The
    constructor throws on a pattern it cannot compile. *)
Variable RegExp_test : string -> string -> Completion bool.

Definition validateString (data : JSValue) (schema : JSONSchema) : Completion bool :=
  match data with
  | JSString s =>
      check Return (validateConst data schema) ;;
      check Return (validateEnum data schema) ;;
      check match maxLength schema with
            | Some maxLength =>
                if not_a_length maxLength
                then Throw (Error "'maxLength' must be a non-negative integer.")
                else Return (negb (js_gt (length_of data) maxLength))
            | None => Return true
            end ;;
      check match minLength schema with
            | Some minLength =>
                if not_a_length minLength
                then Throw (Error "'minLength' must be a non-negative integer.")
                else Return (negb (js_lt (length_of data) minLength))
            | None => Return true
            end ;;
      check match pattern schema with
            | Some pattern =>
                if ToBoolean (JSString pattern) then RegExp_test pattern s else Return true
            | None => Return true
            end ;;
      Return true
  | _ => Return false (* typeof data !== 'string' *)
  end.

Definition validateBoolean (data : JSValue) (schema : JSONSchema) : Completion bool :=
  match data with
  | JSBoolean _ =>
      check Return (validateConst data schema) ;;
      Return true
  | _ => Return false (* typeof data !== 'boolean' *)
  end.

(** [schema.hasOwnProperty(bound) && (schema.bound !== undefined)
    && (data cmp schema.bound)], the condition of each of the four range
    checks of [validateNumber]. *)
Definition exceeds (bound : option float) (cmp : float -> float -> bool) (data : float) : bool :=
  match bound with
  | Some b => cmp data b
  | None => false
  end.

Definition validateNumber (data : JSValue) (schema : JSONSchema) : Completion bool :=
  match data with
  | JSNumber d =>
      if strict_equals (type schema) (JSString "integer") && negb (Number_isInteger d)
      then Return false else
      check Return (validateConst data schema) ;;
      check Return (validateEnum data schema) ;;
      check match multipleOf schema with
            | Some multipleOf =>
                if js_le multipleOf 0%float
                then Throw (Error "'multipleOf' must be a number strictly greater than 0.")
                else Return (Number_isInteger (d / multipleOf)%float)
            | None => Return true
            end ;;
      if exceeds (maximum schema) js_gt d then Return false else
      if exceeds (exclusiveMaximum schema) js_ge d then Return false else
      if exceeds (minimum schema) js_lt d then Return false else
      if exceeds (exclusiveMinimum schema) js_le d then Return false else
      Return true
  | _ => Return false (* typeof data !== 'number' *)
  end.

Definition required_message : string :=
  "'required' properties must be described in 'properties' too.".

(** The loop of [validateRequired] over [schema.required]. *)
Fixpoint validateRequired_loop (data : JSValue) (props : list (string * JSONSchema))
    (names : list string) : Completion bool :=
  match names with
  | [] => Return true
  | requiredProp :: rest =>
      declared <- properties_hasOwnProperty props requiredProp ;;
      if negb declared then Throw (Error required_message) else
      check data_hasOwnProperty data requiredProp ;;
      validateRequired_loop data props rest
  end.

(** Thrown on reading a property of [undefined]. *)
Definition undefined_properties : Exception :=
  TypeError "Cannot read properties of undefined".

Definition validateRequired (data : JSValue) (schema : JSONSchema) : Completion bool :=
  match required schema with
  | None => Return true
  | Some names =>
      match properties schema with
      | Some props => validateRequired_loop data props names
      | None => match names with
                | [] => Return true
                | _ :: _ => Throw undefined_properties
                end
      end
  end.

(** The array and object cases call back into [validate], here
    [this_validate]. *)
Section Recursive.

Variable this_validate : JSValue -> JSONSchema -> Completion JSValue.

(** [this.validate(value, schema.items)]; reading [type] off a missing
    [items] throws. *)
Definition validate_item (schema : JSONSchema) (value : JSValue) : Completion JSValue :=
  match items schema with
  | Some itemSchema => this_validate value itemSchema
  | None => Throw undefined_properties
  end.

(** The loop of [validateArray] over the elements. *)
Fixpoint validateArray_loop (schema : JSONSchema) (values : list JSValue) : Completion bool :=
  match values with
  | [] => Return true
  | value :: rest =>
      result <- validate_item schema value ;;
      if negb (ToBoolean result) then Return false
      else validateArray_loop schema rest
  end.

Definition validateArray (data : JSValue) (schema : JSONSchema) : Completion bool :=
  match data with
  | JSArray _ elements =>
      check match maxItems schema with
            | Some maxItems =>
                if not_a_length maxItems
                then Throw (Error "'maxItems' must be a non-negative integer.")
                else Return (negb (js_gt (length_of data) maxItems))
            | None => Return true
            end ;;
      check match minItems schema with
            | Some minItems =>
                if not_a_length minItems
                then Throw (Error "'minItems' must be a non-negative integer.")
                else Return (negb (js_lt (length_of data) minItems))
            | None => Return true
            end ;;
      check match uniqueItems schema with
            | Some true =>
                Return (Nat.eqb (List.length elements) (Set_size (new_Set elements)))
            | _ => Return true
            end ;;
      validateArray_loop schema elements
  | _ => Return false (* !Array.isArray(data) *)
  end.

(** The [for-in] loop of [validateObject] over the entries of
    [schema.properties], here [all]; [propertySchema] is
    [schema.properties[property]]. *)
Fixpoint validateObject_loop (data : JSValue) (all : list (string * JSONSchema))
    (props : list (string * JSONSchema)) : Completion bool :=
  match props with
  | [] => Return true
  | (property, propertySchema) :: rest =>
      declared <- properties_hasOwnProperty all property ;;
      present <- (if declared then data_hasOwnProperty data property else Return false) ;;
      if present
      then result <- this_validate (get data property) propertySchema ;;
           if negb (ToBoolean result) then Return false
           else validateObject_loop data all rest
      else validateObject_loop data all rest
  end.

Definition validateObject (data : JSValue) (schema : JSONSchema) : Completion bool :=
  if strict_equals data JSNull || negb (typeof data =? "object") then Return false else
  match properties schema with
  | None => Throw (TypeError "Cannot convert undefined or null to object")
  | Some props =>
      if (List.length (map fst props) <? List.length (Object_keys data))%nat
      then Return false else
      check validateRequired data schema ;;
      validateObject_loop data props props
  end.

End Recursive.

(** The boolean a case of [validate] returns, as a value. *)
Definition boolean (c : Completion bool) : Completion JSValue :=
  b <- c ;; Return (JSBoolean b).

Fixpoint validate (data : JSValue) (schema : JSONSchema) {struct schema} : Completion JSValue :=
  if strict_equals (type schema) (JSString "string")
  then boolean (validateString data schema)
  else if strict_equals (type schema) (JSString "number")
          || strict_equals (type schema) (JSString "integer")
  then boolean (validateNumber data schema)
  else if strict_equals (type schema) (JSString "boolean")
  then boolean (validateBoolean data schema)
  else if strict_equals (type schema) (JSString "array")
  then boolean (validateArray validate data schema)
  else if strict_equals (type schema) (JSString "object")
  then boolean (validateObject validate data schema)
  else Return JSUndefined.

End Validator.

(** ** Schemas by interface *)

(** The objects a caller writes for each of the six interfaces: the fields of
    the interface as given, every other field missing. *)
Definition JSONSchemaBoolean (const : option JSValue) : JSONSchema :=
  mkSchema (JSString "boolean") const None None None None None None None None None
           None None None None None None.

Definition JSONSchemaString (const : option JSValue) (enum : option (list JSValue))
    (maxLength minLength : option float) (pattern : option string) : JSONSchema :=
  mkSchema (JSString "string") const enum maxLength minLength pattern None None None None None
           None None None None None None.

Definition JSONSchemaNumber (const : option JSValue) (enum : option (list JSValue))
    (multipleOf maximum exclusiveMaximum minimum exclusiveMinimum : option float) : JSONSchema :=
  mkSchema (JSString "number") const enum None None None
           multipleOf maximum exclusiveMaximum minimum exclusiveMinimum
           None None None None None None.

Definition JSONSchemaInteger (const : option JSValue) (enum : option (list JSValue))
    (multipleOf maximum exclusiveMaximum minimum exclusiveMinimum : option float) : JSONSchema :=
  mkSchema (JSString "integer") const enum None None None
           multipleOf maximum exclusiveMaximum minimum exclusiveMinimum
           None None None None None None.

Definition JSONSchemaArray (items : JSONSchema) (maxItems minItems : option float)
    (uniqueItems : option bool) : JSONSchema :=
  mkSchema (JSString "array") None None None None None None None None None None
           (Some items) maxItems minItems uniqueItems None None.

Definition JSONSchemaObject (properties : list (string * JSONSchema))
    (required : option (list string)) : JSONSchema :=
  mkSchema (JSString "object") None None None None None None None None None None
           None None None None (Some properties) required.

(** The type tags [validate] has a case for. *)
Definition recognized : list string :=
  ["string"; "number"; "integer"; "boolean"; "array"; "object"].

(** A bound is well formed when it is missing or passes the guard. *)
Definition well_formed_bound (bound : option float) : bool :=
  match bound with
  | Some b => negb (not_a_length b)
  | None => true
  end.

(** The check of a maximum passes: the bound is missing, or it is well formed
    and [len] does not exceed it. *)
Definition within_max (len : float) (bound : option float) : bool :=
  match bound with
  | Some b => negb (not_a_length b) && negb (js_gt len b)
  | None => true
  end.

(** [data !== null && typeof data === 'object'] *)
Definition is_object (data : JSValue) : bool :=
  negb (strict_equals data JSNull) && (typeof data =? "object").

(** Two property entries agree for a schema declaring [props]: the same name,
    and the same value when [props] declares the name. *)
Definition agree_on (props : list (string * JSONSchema)) (a b : string * JSValue) : Prop :=
  fst a = fst b /\ (is_some (lookup (fst a) props) = true -> snd a = snd b).

(** [data] and [data'] are both arrays or both other objects and differ at
    most in the values of properties that [props] does not declare. *)
Definition differ_only_undeclared (props : list (string * JSONSchema))
    (data data' : JSValue) : Prop :=
  is_object data = true /\ is_object data' = true
  /\ Array_isArray data = Array_isArray data'
  /\ Forall2 (agree_on props) (enumerable data) (enumerable data').


(** * The backend selector *)

Module Selector.

(** Modelled from the spec: the three backend classes are not among the
    sources.  A backend is known by its class and its prefix; building one is
    taken to succeed. *)
Inductive LocalDatabase : Type :=
| IndexedDBDatabase (prefix : option string)
| LocalStorageDatabase (prefix : option string)
| MockLocalDatabase.

(** What the host does with the request returned by [indexedDB.open]: it
    later fires [success], or [error] with [e.target.error.message]. *)
Inductive RequestEvent : Type :=
| success
| error (message : string).

(** The host the factory runs in.  [indexedDB] and [localStorage] are the
    outcomes of evaluating the two capability conditions (the conjunctions
    after [isPlatformBrowser]), which read a global and may throw;
    [indexedDB_open name] is the outcome of [indexedDB.open(name)]: it throws,
    or returns a request on which the given event fires later. *)
Record Host : Type := {
  isPlatformBrowser : bool;
  indexedDB : Completion bool;
  indexedDB_open : string -> Completion RequestEvent;
  localStorage : Completion bool
}.

(** What a handler does when the host runs it. *)
Inductive HostCall : Type :=
| deleteDatabase (name : string).

(** The request [r] once the factory has set its two handlers. *)
Record IDBOpenDBRequest : Type := {
  fires : RequestEvent;
  onsuccess : Completion (list HostCall);
  onerror : string -> Completion (list HostCall)
}.

(** What the factory leaves behind: the backend it returned and the request
    it opened, if any. *)
Record Selection : Type := {
  database : LocalDatabase;
  request : option IDBOpenDBRequest
}.

(** [cond1 && cond2] where evaluating [cond2] may throw. *)
Definition and_also (c1 : bool) (c2 : Completion bool) : Completion bool :=
  if c1 then c2 else Return false.

(** The body of the [try] block: [Some] when it reaches a [return]. *)
Definition try_block (host : Host) (prefix : option string) : Completion (option Selection) :=
  use_indexedDB <- and_also (isPlatformBrowser host) (indexedDB host) ;;
  if use_indexedDB then
    event <- indexedDB_open host "testStorage" ;;
    let r := {| fires := event;
                onsuccess := Return [deleteDatabase "testStorage"];
                onerror := fun message => Throw (Error message) |} in
    Return (Some {| database := IndexedDBDatabase prefix; request := Some r |})
  else
    use_localStorage <- and_also (isPlatformBrowser host) (localStorage host) ;;
    if use_localStorage
    then Return (Some {| database := LocalStorageDatabase prefix; request := None |})
    else Return None.

(** [try { ... } catch (error) {}] followed by the last [return]. *)
Definition localDatabaseFactory (host : Host) (prefix : option string) : Completion Selection :=
  match try_block host prefix with
  | Return (Some selection) => Return selection
  | Return None => Return {| database := MockLocalDatabase; request := None |}
  | Throw _ => Return {| database := MockLocalDatabase; request := None |}
  end.

(** The host delivering the request's event to the handler set for it; a
    handler runs from the event loop, outside the factory's [try]. *)
Definition deliver (r : IDBOpenDBRequest) : Completion (list HostCall) :=
  match fires r with
  | success => onsuccess r
  | error message => onerror r message
  end.

End Selector.

(** * Well-formed schemas and plain data *)

(** Data in which no object has an own property named hasOwnProperty, so
    that every [data.hasOwnProperty(p)] reaches the inherited method. *)
Fixpoint plain (v : JSValue) : bool :=
  match v with
  | JSArray _ elements => forallb plain elements
  | JSObject _ props =>
      negb (is_some (lookup "hasOwnProperty" props))
      && forallb (fun entry => plain (snd entry)) props
  | _ => true
  end.

Section WellFormed.

Variable RegExp_test : string -> string -> Completion bool.

(** The host compiles [pattern]: testing a string against it returns. *)
Definition compiles (pattern : string) : Prop :=
  forall s, exists matched : bool, RegExp_test pattern s = Return matched.

(** Every name of [names] is declared by [props]. *)
Definition all_declared (props : list (string * JSONSchema)) (names : option (list string))
  : Prop :=
  match names with
  | Some names => forall q, In q names -> is_some (lookup q props) = true
  | None => True
  end.

(** A schema as its interface and the guards of the validator ask for it:
    one of the six type tags; bounds that are non-negative integers; a
    positive [multipleOf]; a pattern the host compiles; [items] for an array;
    for an object, [properties] that do not declare hasOwnProperty and that
    declare every required name; and the same for the schemas inside. *)
Fixpoint well_formed (schema : JSONSchema) {struct schema} : Prop :=
  if strict_equals (type schema) (JSString "string")
  then well_formed_bound (maxLength schema) = true
       /\ well_formed_bound (minLength schema) = true
       /\ match pattern schema with
          | Some pattern => pattern <> "" -> compiles pattern
          | None => True
          end
  else if strict_equals (type schema) (JSString "number")
          || strict_equals (type schema) (JSString "integer")
  then match multipleOf schema with
       | Some m => js_le m 0 = false
       | None => True
       end
  else if strict_equals (type schema) (JSString "boolean")
  then True
  else if strict_equals (type schema) (JSString "array")
  then well_formed_bound (maxItems schema) = true
       /\ well_formed_bound (minItems schema) = true
       /\ match items schema with
          | Some itemSchema => well_formed itemSchema
          | None => False
          end
  else if strict_equals (type schema) (JSString "object")
  then match properties schema with
       | Some props =>
           lookup "hasOwnProperty" props = None
           /\ all_declared props (required schema)
           /\ (fix each (entries : list (string * JSONSchema)) : Prop :=
                 match entries with
                 | [] => True
                 | (_, propertySchema) :: rest => well_formed propertySchema /\ each rest
                 end) props
       | None => False
       end
  else False.

End WellFormed.

(** The requirement that [validateRequired] checks: every required name is
    declared by [props] and present in [data]. *)
Definition required_present (data : JSValue) (props : list (string * JSONSchema))
    (names : option (list string)) : Prop :=
  match names with
  | Some names =>
      forall q, In q names ->
        is_some (lookup q props) = true /\ is_some (own_property data q) = true
  | None => True
  end.

(** A declared property passes when it is absent from the data or its value
    is valid. *)
Definition property_passes (R : string -> string -> Completion bool) (data : JSValue)
    (entry : string * JSONSchema) : Prop :=
  is_some (own_property data (fst entry)) = true ->
  validate R (get data (fst entry)) (snd entry) = Return (JSBoolean true).

(** The first branch of the factory is taken and completes: a browser whose
    [indexedDB] condition holds and in which opening the test database
    returns a request. *)
Definition indexedDB_usable (host : Selector.Host) : Prop :=
  Selector.isPlatformBrowser host = true
  /\ Selector.indexedDB host = Return true
  /\ exists event, Selector.indexedDB_open host "testStorage" = Return event.

(** The second branch is taken: a browser whose [indexedDB] condition is false
    and whose [localStorage] condition holds. *)
Definition localStorage_usable (host : Selector.Host) : Prop :=
  Selector.isPlatformBrowser host = true
  /\ Selector.indexedDB host = Return false
  /\ Selector.localStorage host = Return true.

(** The check of a minimum passes: the bound is missing, or it is well formed
    and [len] is not below it. *)
Definition within_min (len : float) (bound : option float) : bool :=
  match bound with
  | Some b => negb (not_a_length b) && negb (js_lt len b)
  | None => true
  end.

(** The uniqueness check of [validateArray] passes. *)
Definition passes_uniqueItems (elements : list JSValue) (schema : JSONSchema) : bool :=
  match uniqueItems schema with
  | Some true => Nat.eqb (List.length elements) (Set_size (new_Set elements))
  | _ => true
  end.

(** [data] is an array that passes the [maxItems], [minItems] and
    [uniqueItems] checks, so that its elements are validated. *)
Definition reaches_items (data : JSValue) (schema : JSONSchema) : bool :=
  match data with
  | JSArray _ elements =>
      within_max (length_of data) (maxItems schema)
      && within_min (length_of data) (minItems schema)
      && passes_uniqueItems elements schema
  | _ => false
  end.

(** [data] gets as far as the length checks of [validateString]: it is a
    string and passes [const] and [enum]. *)
Definition reaches_length_checks (data : JSValue) (schema : JSONSchema) : bool :=
  (typeof data =? "string") && validateConst data schema && validateEnum data schema.

(** [data] gets as far as the [multipleOf] check of [validateNumber]: it is
    a number, whole if the schema is an integer schema, and passes [const]
    and [enum]. *)
Definition reaches_multipleOf (data : JSValue) (schema : JSONSchema) : bool :=
  match data with
  | JSNumber d =>
      negb (strict_equals (type schema) (JSString "integer") && negb (Number_isInteger d))
      && validateConst data schema && validateEnum data schema
  | _ => false
  end.

(** * Inputs of the examples *)

(** A host whose [RegExp] rejects every pattern; the schemas of the examples
    carry no pattern, so it is never consulted. *)
Definition no_RegExp : string -> string -> Completion bool :=
  fun pattern _ => Throw (SyntaxError pattern).

Definition integer_schema : JSONSchema :=
  JSONSchemaInteger None None None None None None None.

Definition string_schema : JSONSchema :=
  JSONSchemaString None None None None None.

(** [{type: "number", multipleOf: m}] *)
Definition multipleOf_schema (m : float) : JSONSchema :=
  JSONSchemaNumber None None (Some m) None None None None.

(** [{type: "array", uniqueItems: true, items: {type: "integer"}}] *)
Definition unique_integers : JSONSchema :=
  JSONSchemaArray integer_schema None None (Some true).

(** A browser in which [indexedDB] and [localStorage] both exist and
    [indexedDB.open] throws. *)
Definition host_open_throws : Selector.Host :=
  {| Selector.isPlatformBrowser := true;
     Selector.indexedDB := Return true;
     Selector.indexedDB_open := fun _ => Throw (Error "The operation is insecure.");
     Selector.localStorage := Return true |}.

(** A browser in which [indexedDB.open] returns a request that later fails. *)
Definition host_open_fails : Selector.Host :=
  {| Selector.isPlatformBrowser := true;
     Selector.indexedDB := Return true;
     Selector.indexedDB_open := fun _ => Return (Selector.error "denied");
     Selector.localStorage := Return true |}.

(** * Properties of the validator *)

Lemma validate_unfold (R : string -> string -> Completion bool) data schema :
  validate R data schema =
  if strict_equals (type schema) (JSString "string")
  then boolean (validateString R data schema)
  else if strict_equals (type schema) (JSString "number")
          || strict_equals (type schema) (JSString "integer")
  then boolean (validateNumber data schema)
  else if strict_equals (type schema) (JSString "boolean")
  then boolean (validateBoolean data schema)
  else if strict_equals (type schema) (JSString "array")
  then boolean (validateArray (validate R) data schema)
  else if strict_equals (type schema) (JSString "object")
  then boolean (validateObject (validate R) data schema)
  else Return JSUndefined.
Proof. destruct schema; reflexivity. Qed.

Lemma strict_equals_string v t :
  strict_equals v (JSString t) = true -> v = JSString t.
Proof.
  destruct v; simpl; try discriminate.
  intros H. apply String.eqb_eq in H. now subst.
Qed.

Lemma validate_string R data schema :
  type schema = JSString "string" ->
  validate R data schema = boolean (validateString R data schema).
Proof. intros H. rewrite validate_unfold, H. reflexivity. Qed.

Lemma validate_number R data schema :
  type schema = JSString "number" \/ type schema = JSString "integer" ->
  validate R data schema = boolean (validateNumber data schema).
Proof. intros [H | H]; rewrite validate_unfold, H; reflexivity. Qed.

Lemma validate_boolean R data schema :
  type schema = JSString "boolean" ->
  validate R data schema = boolean (validateBoolean data schema).
Proof. intros H. rewrite validate_unfold, H. reflexivity. Qed.

Lemma validate_array R data schema :
  type schema = JSString "array" ->
  validate R data schema = boolean (validateArray (validate R) data schema).
Proof. intros H. rewrite validate_unfold, H. reflexivity. Qed.

Lemma validate_object R data schema :
  type schema = JSString "object" ->
  validate R data schema = boolean (validateObject (validate R) data schema).
Proof. intros H. rewrite validate_unfold, H. reflexivity. Qed.

(** ** Dispatch *)

(** C8.  [validate] has a case for six type tags and no default: on a schema
    whose [type] is none of them the switch falls through, and the call
    returns [undefined], which is not a boolean, whatever the data. *)
Theorem validate_unrecognized_type R data schema :
  (forall t, In t recognized -> type schema <> JSString t) ->
  validate R data schema = Return JSUndefined.
Proof.
  intros H. rewrite validate_unfold.
  repeat match goal with
  | |- context [strict_equals (type schema) (JSString ?t)] =>
      let E := fresh "E" in
      destruct (strict_equals (type schema) (JSString t)) eqn:E;
      [ apply strict_equals_string in E; exfalso; apply (H t);
        [ unfold recognized; simpl; tauto | exact E ] | ]
  end.
  reflexivity.
Qed.

Lemma validate_unrecognized_type_witness :
  validate no_RegExp (JSString "x") (mkSchema (JSString "null") None None None None None None
    None None None None None None None None None None) = Return JSUndefined.
Proof.
  apply validate_unrecognized_type.
  intros t Ht. unfold recognized in Ht. simpl in Ht.
  intuition (subst; discriminate).
Defined.

(** ** [const] *)

(** C3.  [validateConst] skips the comparison when [schema.const] is falsy,
    not only when it is missing: with [const] present and equal to [false],
    [0] or the empty string, data different from it is accepted. *)
Theorem validateConst_falsy_const_accepts R :
  (forall data schema c,
     const schema = Some c -> ToBoolean c = false -> validateConst data schema = true)
  /\ validate R (JSBoolean true) (JSONSchemaBoolean (Some (JSBoolean false)))
    = Return (JSBoolean true)
  /\ validate R (JSNumber 5) (JSONSchemaNumber (Some (JSNumber 0)) None None None None None None)
    = Return (JSBoolean true)
  /\ validate R (JSString "a") (JSONSchemaString (Some (JSString "")) None None None None)
    = Return (JSBoolean true).
Proof.
  refine (conj _ (conj _ (conj _ _))); try (vm_compute; reflexivity).
  intros data schema c Hc Hfalsy. unfold validateConst.
  rewrite Hc. simpl. rewrite Hfalsy. reflexivity.
Qed.

(** ** [multipleOf] *)

(** The quotient of the doubles nearest 0.3 and 0.1 is 2.9999999999999996,
    which is not an integer: 0.3 is rejected as a multiple of 0.1. *)
Lemma multipleOf_tenth_rejects_three_tenths :
  validate no_RegExp (JSNumber 0.3) (multipleOf_schema 0.1) = Return (JSBoolean false).
Proof. vm_compute. reflexivity. Qed.

(** C2, as the code has it.  With a [multipleOf] greater than 0, a number is
    rejected when the double quotient [data / multipleOf] is not an integer,
    and when the schema carries nothing but [multipleOf] that quotient alone
    decides. *)
Theorem multipleOf_decided_by_double_quotient R schema d m :
  type schema = JSString "number" \/ type schema = JSString "integer" ->
  multipleOf schema = Some m ->
  js_le m 0 = false ->
  (Number_isInteger (d / m) = false ->
   validate R (JSNumber d) schema = Return (JSBoolean false))
  /\ validate R (JSNumber d) (multipleOf_schema m)
     = Return (JSBoolean (Number_isInteger (d / m))).
Proof.
  intros Ht Hm Hpos. split.
  - intros Hq. rewrite (validate_number _ _ _ Ht).
    unfold validateNumber.
    destruct (strict_equals (type schema) (JSString "integer") && negb (Number_isInteger d));
      [reflexivity|].
    destruct (validateConst (JSNumber d) schema); [|reflexivity].
    destruct (validateEnum (JSNumber d) schema); [|reflexivity].
    simpl. rewrite Hm, Hpos. simpl. rewrite Hq. reflexivity.
  - rewrite validate_number by (left; reflexivity).
    unfold validateNumber, multipleOf_schema, JSONSchemaNumber. simpl.
    rewrite Hpos. simpl.
    destruct (Number_isInteger (d / m)); reflexivity.
Qed.

Lemma multipleOf_decided_by_double_quotient_witness :
  (Number_isInteger (0.5 / 0.25) = false ->
   validate no_RegExp (JSNumber 0.5) (multipleOf_schema 0.25) = Return (JSBoolean false))
  /\ validate no_RegExp (JSNumber 0.5) (multipleOf_schema 0.25)
     = Return (JSBoolean (Number_isInteger (0.5 / 0.25))).
Proof.
  apply (multipleOf_decided_by_double_quotient no_RegExp (multipleOf_schema 0.25) 0.5 0.25).
  - left. reflexivity.
  - reflexivity.
  - vm_compute. reflexivity.
Defined.

(** ** The guard of the object case *)




(** ** Malformed bounds *)

(** A malformed bound is reported only when its check is reached: data of the
    wrong type is turned away first, with [false]. *)
Lemma malformed_maxLength_not_reached :
  validate no_RegExp (JSNumber 5) (JSONSchemaString None None (Some (-1)%float) None None)
  = Return (JSBoolean false).
Proof. vm_compute. reflexivity. Qed.

Lemma Prim2SF_nan : Prim2SF nan = S754_nan.
Proof. reflexivity. Qed.

Lemma Number_isInteger_over_nan d : Number_isInteger (d / nan) = false.
Proof.
  unfold Number_isInteger. rewrite FloatAxioms.div_spec, Prim2SF_nan.
  unfold SF64div, SFdiv. destruct (Prim2SF d); reflexivity.
Qed.

(** C4, as the code has it.  A malformed bound makes [validate] throw
    exactly when the check of that bound is reached, and data that an earlier
    check turns away gets [false]: a malformed [maxLength] throws for the
    strings that pass [const] and [enum]; a malformed [minLength] for those
    that also pass a well-formed [maxLength]; a malformed [maxItems] for
    every array; a malformed [minItems] for the arrays that pass a
    well-formed [maxItems]; a [multipleOf] that is at most 0 for the numbers
    that pass the integer test, [const] and [enum].  A [multipleOf] that is
    [NaN] throws for no data: every data gets [false]. *)
Theorem malformed_bound_raises_exactly_when_reached R :
  (forall data schema b,
     type schema = JSString "string" ->
     maxLength schema = Some b -> not_a_length b = true ->
     validate R data schema
     = if reaches_length_checks data schema
       then Throw (Error "'maxLength' must be a non-negative integer.")
       else Return (JSBoolean false))
  /\ (forall data schema b,
     type schema = JSString "string" ->
     well_formed_bound (maxLength schema) = true ->
     minLength schema = Some b -> not_a_length b = true ->
     validate R data schema
     = if reaches_length_checks data schema
          && within_max (length_of data) (maxLength schema)
       then Throw (Error "'minLength' must be a non-negative integer.")
       else Return (JSBoolean false))
  /\ (forall data schema b,
     type schema = JSString "array" ->
     maxItems schema = Some b -> not_a_length b = true ->
     validate R data schema
     = if Array_isArray data
       then Throw (Error "'maxItems' must be a non-negative integer.")
       else Return (JSBoolean false))
  /\ (forall data schema b,
     type schema = JSString "array" ->
     well_formed_bound (maxItems schema) = true ->
     minItems schema = Some b -> not_a_length b = true ->
     validate R data schema
     = if Array_isArray data && within_max (length_of data) (maxItems schema)
       then Throw (Error "'minItems' must be a non-negative integer.")
       else Return (JSBoolean false))
  /\ (forall data schema m,
     type schema = JSString "number" \/ type schema = JSString "integer" ->
     multipleOf schema = Some m -> js_le m 0 = true ->
     validate R data schema
     = if reaches_multipleOf data schema
       then Throw (Error "'multipleOf' must be a number strictly greater than 0.")
       else Return (JSBoolean false))
  /\ (forall data schema,
     type schema = JSString "number" \/ type schema = JSString "integer" ->
     multipleOf schema = Some nan ->
     validate R data schema = Return (JSBoolean false)).
Proof.
  refine (conj _ (conj _ (conj _ (conj _ (conj _ _))))).
  - intros data schema b Ht Hb Hbad. rewrite (validate_string _ _ _ Ht).
    unfold validateString, reaches_length_checks.
    destruct data; try reflexivity. cbn [typeof]. change ("string" =? "string") with true.
    cbn [andb].
    destruct (validateConst (JSString s) schema); [|reflexivity].
    destruct (validateEnum (JSString s) schema); [|reflexivity].
    cbn [bind andb]. rewrite Hb, Hbad. reflexivity.
  - intros data schema b Ht Hmax Hb Hbad. rewrite (validate_string _ _ _ Ht).
    unfold validateString, reaches_length_checks.
    destruct data; try reflexivity. cbn [typeof]. change ("string" =? "string") with true.
    cbn [andb].
    destruct (validateConst (JSString s) schema); [|reflexivity].
    destruct (validateEnum (JSString s) schema); [|reflexivity].
    cbn [bind andb]. unfold within_max, well_formed_bound in *.
    destruct (maxLength schema) as [b'|].
    + rewrite Hmax. apply negb_true_iff in Hmax. rewrite Hmax. cbn [andb].
      destruct (negb (js_gt (length_of (JSString s)) b')); cbn [bind]; [|reflexivity].
      rewrite Hb, Hbad. reflexivity.
    + cbn [bind]. rewrite Hb, Hbad. reflexivity.
  - intros data schema b Ht Hb Hbad. rewrite (validate_array _ _ _ Ht).
    unfold validateArray. destruct data; try reflexivity.
    rewrite Hb, Hbad. reflexivity.
  - intros data schema b Ht Hmax Hb Hbad. rewrite (validate_array _ _ _ Ht).
    unfold validateArray. destruct data; try reflexivity. cbn [Array_isArray andb].
    unfold within_max, well_formed_bound in *.
    destruct (maxItems schema) as [b'|].
    + rewrite Hmax. apply negb_true_iff in Hmax. rewrite Hmax. cbn [andb].
      destruct (negb (js_gt (length_of (JSArray ref elements)) b')); cbn [bind];
        [|reflexivity].
      rewrite Hb, Hbad. reflexivity.
    + cbn [bind]. rewrite Hb, Hbad. reflexivity.
  - intros data schema m Ht Hm Hbad. rewrite (validate_number _ _ _ Ht).
    unfold validateNumber, reaches_multipleOf. destruct data; try reflexivity.
    destruct (strict_equals (type schema) (JSString "integer") && negb (Number_isInteger n));
      [reflexivity|]. cbn [negb andb].
    destruct (validateConst (JSNumber n) schema); [|reflexivity].
    destruct (validateEnum (JSNumber n) schema); [|reflexivity].
    cbn [bind andb]. rewrite Hm, Hbad. reflexivity.
  - intros data schema Ht Hm. rewrite (validate_number _ _ _ Ht).
    unfold validateNumber. destruct data; try reflexivity.
    destruct (strict_equals (type schema) (JSString "integer") && negb (Number_isInteger n));
      [reflexivity|].
    destruct (validateConst (JSNumber n) schema); [|reflexivity].
    destruct (validateEnum (JSNumber n) schema); [|reflexivity].
    cbn [bind]. rewrite Hm. change (js_le nan 0) with false. cbn [bind].
    rewrite Number_isInteger_over_nan. reflexivity.
Qed.

Lemma malformed_bound_raises_exactly_when_reached_witness :
  validate no_RegExp (JSString "abc") (JSONSchemaString None None (Some 1.5%float) None None)
  = Throw (Error "'maxLength' must be a non-negative integer.")
  /\ validate no_RegExp (JSString "abc")
       (JSONSchemaString None None (Some 2%float) (Some (-1)%float) None)
     = Return (JSBoolean false)
  /\ validate no_RegExp (JSArray 0 []) (JSONSchemaArray integer_schema (Some infinity) None None)
     = Throw (Error "'maxItems' must be a non-negative integer.")
  /\ validate no_RegExp (JSArray 0 []) (JSONSchemaArray integer_schema None (Some nan) None)
     = Throw (Error "'minItems' must be a non-negative integer.")
  /\ validate no_RegExp (JSNumber 1.5)
       (JSONSchemaInteger None None (Some 0%float) None None None None)
     = Return (JSBoolean false)
  /\ validate no_RegExp (JSNumber 4) (multipleOf_schema nan) = Return (JSBoolean false).
Proof.
  destruct (malformed_bound_raises_exactly_when_reached no_RegExp)
    as (H1 & H2 & H3 & H4 & H5 & H6).
  refine (conj _ (conj _ (conj _ (conj _ (conj _ _))))).
  - exact (H1 (JSString "abc") (JSONSchemaString None None (Some 1.5%float) None None)
             1.5%float eq_refl eq_refl eq_refl).
  - exact (H2 (JSString "abc")
             (JSONSchemaString None None (Some 2%float) (Some (-1)%float) None)
             (-1)%float eq_refl eq_refl eq_refl eq_refl).
  - exact (H3 (JSArray 0 []) (JSONSchemaArray integer_schema (Some infinity) None None)
             infinity eq_refl eq_refl eq_refl).
  - exact (H4 (JSArray 0 []) (JSONSchemaArray integer_schema None (Some nan) None)
             nan eq_refl eq_refl eq_refl eq_refl).
  - exact (H5 (JSNumber 1.5) (JSONSchemaInteger None None (Some 0%float) None None None None)
             0%float (or_intror eq_refl) eq_refl eq_refl).
  - exact (H6 (JSNumber 4) (multipleOf_schema nan) (or_introl eq_refl) eq_refl).
Defined.

(** ** [required] *)

Lemma validateObject_reaches_required this_validate data schema props :
  is_object data = true ->
  properties schema = Some props ->
  List.length (Object_keys data) <= List.length props ->
  validateObject this_validate data schema
  = (check validateRequired data schema ;; validateObject_loop this_validate data props props).
Proof.
  intros Hobj Hp Hcount. unfold validateObject.
  unfold is_object in Hobj. apply andb_prop in Hobj. destruct Hobj as [Hnull Htype].
  apply negb_true_iff in Hnull. rewrite Hnull, Htype, Hp. cbn [negb orb].
  rewrite length_map.
  assert (Hlt : (List.length props <? List.length (Object_keys data))%nat = false)
    by (apply Nat.ltb_ge; exact Hcount).
  rewrite Hlt. reflexivity.
Qed.

(** An undeclared required name is not reported for data that an earlier
    check turns away: [null], or an object that lacks a required property
    listed before it. *)
Lemma required_undeclared_not_reached :
  validate no_RegExp JSNull (JSONSchemaObject [] (Some ["missing"]))
  = Return (JSBoolean false)
  /\ validate no_RegExp (JSObject 0 [])
       (JSONSchemaObject [("a", string_schema)] (Some ["a"; "missing"]))
     = Return (JSBoolean false).
Proof. split; vm_compute; reflexivity. Qed.

Lemma validateRequired_loop_first_undeclared data props pre p post :
  lookup "hasOwnProperty" props = None ->
  own_property data "hasOwnProperty" = None ->
  (forall q, In q pre -> is_some (lookup q props) = true) ->
  lookup p props = None ->
  validateRequired_loop data props (pre ++ p :: post)
  = if forallb (fun q => is_some (own_property data q)) pre
    then Throw (Error required_message)
    else Return false.
Proof.
  intros Hh Hd Hpre Hp.
  assert (Hprops : forall q, properties_hasOwnProperty props q
                             = Return (is_some (lookup q props))).
  { intros q. unfold properties_hasOwnProperty, call_hasOwnProperty.
    rewrite Hh. reflexivity. }
  assert (Hdata : forall q, data_hasOwnProperty data q
                            = Return (is_some (own_property data q))).
  { intros q. unfold data_hasOwnProperty, call_hasOwnProperty.
    rewrite Hd. reflexivity. }
  induction pre as [|q pre IH]; cbn [app validateRequired_loop forallb].
  - rewrite Hprops, Hp. reflexivity.
  - rewrite Hprops, (Hpre q (or_introl eq_refl)). cbn [bind negb].
    rewrite Hdata. cbn [bind].
    destruct (is_some (own_property data q)); cbn [andb]; [|reflexivity].
    apply IH. intros q' Hq'. apply Hpre. right. exact Hq'.
Qed.

(** C5, as the code has it.  Take an object schema whose [required] list
    names a property that [properties] does not declare, [p] being the first
    such name, and leave aside properties and data with an own property
    named hasOwnProperty.  Then [validate] throws the error of
    [validateRequired] exactly for the non-null objects that have no more keys
    than the schema declares properties and that have every required property
    listed before [p]; every other data gets [false]. *)
Theorem required_undeclared_raises_exactly R data schema props pre p post :
  type schema = JSString "object" ->
  properties schema = Some props ->
  required schema = Some (pre ++ p :: post) ->
  lookup p props = None ->
  (forall q, In q pre -> is_some (lookup q props) = true) ->
  lookup "hasOwnProperty" props = None ->
  own_property data "hasOwnProperty" = None ->
  validate R data schema
  = if is_object data
       && (List.length (Object_keys data) <=? List.length props)%nat
       && forallb (fun q => is_some (own_property data q)) pre
    then Throw (Error required_message)
    else Return (JSBoolean false).
Proof.
  intros Ht Hprops Hr Hp Hpre Hh Hd.
  rewrite (validate_object _ _ _ Ht). unfold validateObject, is_object.
  destruct (strict_equals data JSNull); cbn [negb orb andb]; [reflexivity|].
  destruct (typeof data =? "object"); cbn [negb andb]; [|reflexivity].
  rewrite Hprops, length_map.
  rewrite (Nat.leb_antisym (List.length props) (List.length (Object_keys data))).
  destruct (List.length props <? List.length (Object_keys data))%nat;
    cbn [negb andb]; [reflexivity|].
  unfold validateRequired. rewrite Hr, Hprops.
  rewrite (validateRequired_loop_first_undeclared _ _ _ _ _ Hh Hd Hpre Hp).
  destruct (forallb (fun q => is_some (own_property data q)) pre); reflexivity.
Qed.

Lemma required_undeclared_raises_exactly_witness :
  validate no_RegExp (JSObject 0 [("length", JSString "x")])
    (JSONSchemaObject [("length", JSONSchemaNumber None None None None None None None)]
                      (Some ["length"; "missing"]))
  = Throw (Error required_message)
  /\ validate no_RegExp (JSObject 0 [])
       (JSONSchemaObject [("length", JSONSchemaNumber None None None None None None None)]
                         (Some ["length"; "missing"]))
     = Return (JSBoolean false).
Proof.
  assert (Hpre : forall q, In q ["length"] ->
            is_some (lookup q [("length", JSONSchemaNumber None None None None None None None)])
            = true)
    by (intros q [<- | []]; reflexivity).
  split.
  - exact (required_undeclared_raises_exactly no_RegExp
             (JSObject 0 [("length", JSString "x")])
             (JSONSchemaObject
                [("length", JSONSchemaNumber None None None None None None None)]
                (Some ["length"; "missing"]))
             [("length", JSONSchemaNumber None None None None None None None)]
             ["length"] "missing" [] eq_refl eq_refl eq_refl eq_refl Hpre eq_refl eq_refl).
  - exact (required_undeclared_raises_exactly no_RegExp
             (JSObject 0 [])
             (JSONSchemaObject
                [("length", JSONSchemaNumber None None None None None None None)]
                (Some ["length"; "missing"]))
             [("length", JSONSchemaNumber None None None None None None None)]
             ["length"] "missing" [] eq_refl eq_refl eq_refl eq_refl Hpre eq_refl eq_refl).
Defined.

(** ** The closed shape of objects *)

Lemma lookup_agree props ps ps' :
  Forall2 (agree_on props) ps ps' ->
  forall q,
    is_some (lookup q ps) = is_some (lookup q ps')
    /\ (is_some (lookup q props) = true -> lookup q ps = lookup q ps').
Proof.
  induction 1 as [|[k v] [k' v'] ps ps' [Hk Hv] _ IH]; intros q.
  - split; reflexivity.
  - simpl in Hk, Hv. subst k'. cbn [lookup].
    destruct (String.eqb q k) eqn:E.
    + apply String.eqb_eq in E. subst q. split; [reflexivity|].
      intros Hd. rewrite (Hv Hd). reflexivity.
    + apply IH.
Qed.

Lemma indexed_length elements :
  List.length (indexed elements) = List.length elements.
Proof.
  unfold indexed. rewrite length_map, length_combine, length_seq.
  apply Nat.min_id.
Qed.

Lemma own_property_agree props data data' :
  differ_only_undeclared props data data' ->
  forall q,
    is_some (own_property data q) = is_some (own_property data' q)
    /\ (is_some (lookup q props) = true -> own_property data q = own_property data' q).
Proof.
  intros (_ & _ & Harr & Hall) q.
  pose proof (lookup_agree _ _ _ Hall q) as Hq.
  pose proof (Forall2_length Hall) as Hlen.
  destruct data, data'; simpl in Harr; try discriminate; simpl in Hall, Hq, Hlen |- *;
    try exact Hq.
  rewrite !indexed_length in Hlen. rewrite Hlen.
  destruct (String.eqb q "length"); [split; reflexivity | exact Hq].
Qed.

Lemma data_hasOwnProperty_agree props data data' q :
  differ_only_undeclared props data data' ->
  data_hasOwnProperty data q = data_hasOwnProperty data' q.
Proof.
  intros H. unfold data_hasOwnProperty, call_hasOwnProperty.
  rewrite (proj1 (own_property_agree _ _ _ H "hasOwnProperty")).
  rewrite (proj1 (own_property_agree _ _ _ H q)). reflexivity.
Qed.

Lemma validateRequired_loop_agree props data data' all names :
  differ_only_undeclared props data data' ->
  validateRequired_loop data all names = validateRequired_loop data' all names.
Proof.
  intros H. induction names as [|q names IH]; cbn [validateRequired_loop]; [reflexivity|].
  rewrite (data_hasOwnProperty_agree _ _ _ q H), IH. reflexivity.
Qed.

Lemma properties_hasOwnProperty_true props q :
  properties_hasOwnProperty props q = Return true ->
  is_some (lookup q props) = true.
Proof.
  unfold properties_hasOwnProperty, call_hasOwnProperty.
  destruct (is_some (lookup "hasOwnProperty" props)); [discriminate|].
  intros H. injection H as H. exact H.
Qed.

Lemma validateObject_loop_agree this_validate props data data' rest :
  differ_only_undeclared props data data' ->
  validateObject_loop this_validate data props rest
  = validateObject_loop this_validate data' props rest.
Proof.
  intros H. induction rest as [|[property propertySchema] rest IH];
    cbn [validateObject_loop]; [reflexivity|].
  destruct (properties_hasOwnProperty props property) as [[|]|e] eqn:E; cbn [bind].
  - rewrite (data_hasOwnProperty_agree _ _ _ property H).
    apply properties_hasOwnProperty_true in E.
    unfold get. rewrite (proj2 (own_property_agree _ _ _ H property) E), IH.
    reflexivity.
  - exact IH.
  - reflexivity.
Qed.

Lemma validateObject_agree this_validate data data' schema props :
  properties schema = Some props ->
  differ_only_undeclared props data data' ->
  validateObject this_validate data schema = validateObject this_validate data' schema.
Proof.
  intros Hp H. pose proof H as (Hobj & Hobj' & _ & Hall).
  unfold validateObject. unfold is_object in Hobj, Hobj'.
  apply andb_prop in Hobj, Hobj'. destruct Hobj as [Hn Ht], Hobj' as [Hn' Ht'].
  apply negb_true_iff in Hn, Hn'. rewrite Hn, Hn', Ht, Ht', Hp. cbn [negb orb].
  unfold Object_keys. rewrite !length_map, (Forall2_length Hall).
  unfold validateRequired. rewrite Hp.
  rewrite (validateObject_loop_agree _ _ _ _ props H).
  destruct (required schema) as [names|];
    [rewrite (validateRequired_loop_agree _ _ _ props names H)|]; reflexivity.
Qed.

(** C6.  An object schema turns away every non-null object that has more keys
    than the schema declares properties; only the two counts are compared, so
    an object with an undeclared key in place of a declared one is accepted;
    and the values of undeclared properties are never looked at: changing
    them changes nothing. *)
Theorem closed_shape_counts_keys R :
  (forall data schema props,
     type schema = JSString "object" ->
     properties schema = Some props ->
     is_object data = true ->
     List.length props < List.length (Object_keys data) ->
     validate R data schema = Return (JSBoolean false))
  /\ validate R (JSObject 0 [("b", JSNumber 1)]) (JSONSchemaObject [("a", string_schema)] None)
     = Return (JSBoolean true)
  /\ (forall data data' schema props,
     type schema = JSString "object" ->
     properties schema = Some props ->
     differ_only_undeclared props data data' ->
     validate R data schema = validate R data' schema).
Proof.
  refine (conj _ (conj _ _)).
  - intros data schema props Ht Hp Hobj Hcount.
    rewrite (validate_object _ _ _ Ht). unfold validateObject.
    unfold is_object in Hobj. apply andb_prop in Hobj. destruct Hobj as [Hn Hty].
    apply negb_true_iff in Hn. rewrite Hn, Hty, Hp. cbn [negb orb].
    rewrite length_map.
    apply Nat.ltb_lt in Hcount. rewrite Hcount. reflexivity.
  - vm_compute. reflexivity.
  - intros data data' schema props Ht Hp H.
    rewrite !(validate_object _ _ _ Ht).
    rewrite (validateObject_agree _ _ _ _ _ Hp H). reflexivity.
Qed.

Lemma closed_shape_counts_keys_witness :
  validate no_RegExp (JSObject 0 [("a", JSString "x"); ("b", JSNumber 1)])
    (JSONSchemaObject [("a", string_schema)] None)
  = Return (JSBoolean false)
  /\ validate no_RegExp (JSObject 0 [("b", JSNumber 1)])
       (JSONSchemaObject [("a", string_schema)] None)
     = validate no_RegExp (JSObject 1 [("b", JSObject 2 [])])
         (JSONSchemaObject [("a", string_schema)] None).
Proof.
  destruct (closed_shape_counts_keys no_RegExp) as (Hcount & _ & Hsame).
  split.
  - apply (Hcount _ _ [("a", string_schema)]); try reflexivity.
    simpl. lia.
  - apply (Hsame _ _ _ [("a", string_schema)]); try reflexivity.
    unfold differ_only_undeclared.
    refine (conj eq_refl (conj eq_refl (conj eq_refl _))).
    constructor; [|constructor].
    split; [reflexivity|]. simpl. discriminate.
Defined.

(** ** [uniqueItems] *)

Lemma SFcompare_Eq_sym f1 f2 :
  SFcompare f1 f2 = Some Eq -> SFcompare f2 f1 = Some Eq.
Proof.
  destruct f1 as [s1|s1| |s1 m1 e1], f2 as [s2|s2| |s2 m2 e2]; simpl;
    try discriminate; try reflexivity;
    try (destruct s1; discriminate); try (destruct s2; discriminate).
  - destruct s1, s2; try discriminate; reflexivity.
  - destruct s1, s2; try discriminate;
      destruct (e1 ?= e2)%Z eqn:E; try discriminate;
      apply Z.compare_eq in E; subst e2; rewrite Z.compare_refl;
      intros H; injection H as H;
      [ apply (f_equal CompOpp) in H; rewrite CompOpp_involutive in H; simpl in H | ];
      apply Pos.compare_eq in H; subst m2;
      change (PosDef.Pos.compare_cont Eq m1 m1) with (Pos.compare m1 m1);
      rewrite Pos.compare_refl; reflexivity.
Qed.

Lemma float_eqb_sym x y : PrimFloat.eqb x y = PrimFloat.eqb y x.
Proof.
  rewrite !FloatAxioms.eqb_spec. unfold SFeqb.
  destruct (SFcompare (Prim2SF x) (Prim2SF y)) as [[| |]|] eqn:E1;
    destruct (SFcompare (Prim2SF y) (Prim2SF x)) as [[| |]|] eqn:E2;
    try reflexivity;
    try (apply SFcompare_Eq_sym in E1; congruence);
    try (apply SFcompare_Eq_sym in E2; congruence).
Qed.

Lemma SameValueZero_sym a b : SameValueZero a b = SameValueZero b a.
Proof.
  destruct a, b; simpl; try reflexivity.
  - destruct b, b0; reflexivity.
  - rewrite float_eqb_sym, andb_comm. reflexivity.
  - apply String.eqb_sym.
  - apply Nat.eqb_sym.
  - apply Nat.eqb_sym.
Qed.

Lemma Set_add_length s v : List.length (Set_add s v) <= S (List.length s).
Proof.
  unfold Set_add. destruct (existsb (SameValueZero v) s).
  - lia.
  - rewrite length_app. simpl. lia.
Qed.

Lemma Set_add_all_length l s :
  List.length (fold_left Set_add l s) <= List.length s + List.length l.
Proof.
  revert s. induction l as [|v l IH]; intros s; simpl.
  - lia.
  - pose proof (IH (Set_add s v)). pose proof (Set_add_length s v). lia.
Qed.

Lemma Set_add_keeps s v x : In x s -> In x (Set_add s v).
Proof.
  unfold Set_add. destruct (existsb (SameValueZero v) s); [easy|].
  intros H. apply in_or_app. left. exact H.
Qed.

Lemma Set_add_all_keeps l s x : In x s -> In x (fold_left Set_add l s).
Proof.
  revert s. induction l as [|v l IH]; intros s H; simpl; [exact H|].
  apply IH, Set_add_keeps, H.
Qed.

(** A value that is already in the set, up to SameValueZero, is not added. *)
Lemma Set_add_present s x y :
  In x s -> SameValueZero x y = true -> Set_add s y = s.
Proof.
  intros Hin Hxy. unfold Set_add.
  assert (E : existsb (SameValueZero y) s = true).
  { apply existsb_exists. exists x. split; [exact Hin|].
    rewrite SameValueZero_sym. exact Hxy. }
  rewrite E. reflexivity.
Qed.

Lemma Set_add_cases s v : Set_add s v = s \/ Set_add s v = s ++ [v].
Proof. unfold Set_add. destruct (existsb (SameValueZero v) s); auto. Qed.

Lemma new_Set_smaller before x between y after :
  SameValueZero x y = true ->
  Set_size (new_Set (before ++ x :: between ++ y :: after))
  < List.length (before ++ x :: between ++ y :: after).
Proof.
  intros Hxy. unfold new_Set, Set_size.
  rewrite fold_left_app. cbn [fold_left]. rewrite fold_left_app. cbn [fold_left].
  rewrite !length_app. cbn [List.length]. rewrite length_app. cbn [List.length].
  pose proof (Set_add_all_length before []) as H1. cbn [List.length] in H1.
  set (s1 := fold_left Set_add before []) in *.
  pose proof (Set_add_all_length between (Set_add s1 x)) as H2.
  set (s2 := fold_left Set_add between (Set_add s1 x)) in *.
  destruct (Set_add_cases s1 x) as [Ex | Ex].
  - rewrite Ex in H2.
    pose proof (Set_add_length s2 y) as H3.
    pose proof (Set_add_all_length after (Set_add s2 y)) as H4.
    lia.
  - rewrite Ex, length_app in H2. cbn [List.length] in H2.
    assert (Hin : In x s2).
    { apply Set_add_all_keeps. rewrite Ex. apply in_or_app. right. left. reflexivity. }
    rewrite (Set_add_present s2 x y Hin Hxy).
    pose proof (Set_add_all_length after s2) as H4.
    lia.
Qed.

Lemma bound_check_well_formed (len : float) (bound : option float)
    (message : string) (cmp : float -> float -> bool) :
  well_formed_bound bound = true ->
  exists ok : bool,
    match bound with
    | Some b => if not_a_length b then Throw (Error message)
                else Return (negb (cmp len b))
    | None => Return true
    end = Return ok.
Proof.
  unfold well_formed_bound. destruct bound as [b|]; [|intros _; eexists; reflexivity].
  intros H. apply negb_true_iff in H. rewrite H. eexists. reflexivity.
Qed.

(** [Set] tells arrays and objects apart by identity, not by content, and a
    malformed [maxItems] is reported before uniqueness is looked at. *)
Lemma uniqueItems_not_by_content :
  validate no_RegExp
    (JSArray 0 [JSArray 1 [JSNumber 1]; JSArray 2 [JSNumber 1]])
    (JSONSchemaArray (JSONSchemaArray integer_schema None None None) None None (Some true))
  = Return (JSBoolean true)
  /\ validate no_RegExp (JSArray 0 [JSNumber 1; JSNumber 1])
       (JSONSchemaArray integer_schema (Some (-1)%float) None (Some true))
     = Throw (Error "'maxItems' must be a non-negative integer.").
Proof. split; vm_compute; reflexivity. Qed.

(** C7, as the code has it.  With [uniqueItems] true and [maxItems] and
    [minItems] missing or well formed, an array is turned away when two of
    its elements are the same value for [Set]: equal primitives, or one and
    the same array or object.  [[1, 1]] is turned away and [[1, 2]] is
    accepted. *)
Theorem uniqueItems_rejects_same_value R :
  (forall ref schema before x between y after,
     type schema = JSString "array" ->
     uniqueItems schema = Some true ->
     well_formed_bound (maxItems schema) = true ->
     well_formed_bound (minItems schema) = true ->
     SameValueZero x y = true ->
     validate R (JSArray ref (before ++ x :: between ++ y :: after)) schema
     = Return (JSBoolean false))
  /\ validate R (JSArray 0 [JSNumber 1; JSNumber 1]) unique_integers = Return (JSBoolean false)
  /\ validate R (JSArray 0 [JSNumber 1; JSNumber 2]) unique_integers = Return (JSBoolean true).
Proof.
  refine (conj _ (conj _ _)); [|vm_compute; reflexivity|vm_compute; reflexivity].
  intros ref schema before x between y after Ht Hu Hmax Hmin Hxy.
  rewrite (validate_array _ _ _ Ht). unfold validateArray.
  set (data := JSArray ref (before ++ x :: between ++ y :: after)).
  destruct (bound_check_well_formed (length_of data) (maxItems schema)
              "'maxItems' must be a non-negative integer." js_gt Hmax) as [ok1 E1].
  destruct (bound_check_well_formed (length_of data) (minItems schema)
              "'minItems' must be a non-negative integer." js_lt Hmin) as [ok2 E2].
  rewrite E1. cbn [bind]. destruct ok1; [|reflexivity].
  rewrite E2. cbn [bind]. destruct ok2; [|reflexivity].
  rewrite Hu. cbn [bind].
  pose proof (new_Set_smaller before x between y after Hxy) as Hlt.
  assert (E : Nat.eqb (List.length (before ++ x :: between ++ y :: after))
                (Set_size (new_Set (before ++ x :: between ++ y :: after))) = false)
    by (apply Nat.eqb_neq; lia).
  rewrite E. reflexivity.
Qed.

Lemma uniqueItems_rejects_same_value_witness :
  validate no_RegExp (JSArray 7 [JSString "a"; JSString "b"; JSString "a"])
    (JSONSchemaArray string_schema (Some 3%float) None (Some true))
  = Return (JSBoolean false).
Proof.
  apply (proj1 (uniqueItems_rejects_same_value no_RegExp)
           7 _ [] (JSString "a") [JSString "b"] (JSString "a") []); reflexivity.
Defined.

(** ** Induction over schemas *)

(** Induction over a schema, its [items] and its [properties]. *)
Lemma JSONSchema_nested_ind (P : JSONSchema -> Prop) :
  (forall schema,
     (forall itemSchema, items schema = Some itemSchema -> P itemSchema) ->
     (forall props, properties schema = Some props ->
        Forall (fun entry => P (snd entry)) props) ->
     P schema) ->
  forall schema, P schema.
Proof.
  intros step. fix IH 1. intros schema. apply step.
  - destruct schema as [? ? ? ? ? ? ? ? ? ? ? its ? ? ? ? ?]. simpl.
    intros itemSchema H. destruct its as [i|]; [|discriminate].
    injection H as <-. apply IH.
  - destruct schema as [? ? ? ? ? ? ? ? ? ? ? ? ? ? ? ps ?]. simpl.
    intros props H. destruct ps as [l|]; [|discriminate].
    injection H as <-.
    induction l as [|[k s] l IHl]; constructor; [apply IH | exact IHl].
Qed.

(** * Further properties of the validator *)

(** ** Type guards *)

(** Data of the wrong type is answered with [false] before anything else of
    the schema is read: no bound, however malformed, is reported for it. *)
Theorem wrong_type_is_false R data schema :
  (type schema = JSString "string" -> typeof data <> "string" ->
   validate R data schema = Return (JSBoolean false))
  /\ (type schema = JSString "number" \/ type schema = JSString "integer" ->
      typeof data <> "number" ->
      validate R data schema = Return (JSBoolean false))
  /\ (type schema = JSString "boolean" -> typeof data <> "boolean" ->
      validate R data schema = Return (JSBoolean false))
  /\ (type schema = JSString "array" -> Array_isArray data = false ->
      validate R data schema = Return (JSBoolean false)).
Proof.
  refine (conj _ (conj _ (conj _ _))).
  - intros Ht Hd. rewrite (validate_string _ _ _ Ht).
    destruct data; try reflexivity. now elim Hd.
  - intros Ht Hd. rewrite (validate_number _ _ _ Ht).
    destruct data; try reflexivity. now elim Hd.
  - intros Ht Hd. rewrite (validate_boolean _ _ _ Ht).
    destruct data; try reflexivity. now elim Hd.
  - intros Ht Hd. rewrite (validate_array _ _ _ Ht).
    destruct data; try reflexivity. discriminate Hd.
Qed.

Lemma wrong_type_is_false_witness :
  validate no_RegExp JSNull (JSONSchemaString None None (Some nan) None None)
  = Return (JSBoolean false)
  /\ validate no_RegExp (JSString "1") (multipleOf_schema (-1))
     = Return (JSBoolean false)
  /\ validate no_RegExp (JSNumber 1) (JSONSchemaBoolean None)
     = Return (JSBoolean false)
  /\ validate no_RegExp (JSObject 0 []) (JSONSchemaArray integer_schema (Some (-1)%float) None None)
     = Return (JSBoolean false).
Proof.
  refine (conj _ (conj _ (conj _ _))).
  - apply (proj1 (wrong_type_is_false no_RegExp _ _)); [reflexivity|discriminate].
  - apply (proj1 (proj2 (wrong_type_is_false no_RegExp _ _))); [left; reflexivity|discriminate].
  - apply (proj1 (proj2 (proj2 (wrong_type_is_false no_RegExp _ _))));
      [reflexivity|discriminate].
  - apply (proj2 (proj2 (proj2 (wrong_type_is_false no_RegExp _ _)))); reflexivity.
Defined.

(** ** Well-formed schemas never throw *)

Lemma well_formed_unfold R schema :
  well_formed R schema <->
  if strict_equals (type schema) (JSString "string")
  then well_formed_bound (maxLength schema) = true
       /\ well_formed_bound (minLength schema) = true
       /\ match pattern schema with
          | Some pattern => pattern <> "" -> compiles R pattern
          | None => True
          end
  else if strict_equals (type schema) (JSString "number")
          || strict_equals (type schema) (JSString "integer")
  then match multipleOf schema with
       | Some m => js_le m 0 = false
       | None => True
       end
  else if strict_equals (type schema) (JSString "boolean")
  then True
  else if strict_equals (type schema) (JSString "array")
  then well_formed_bound (maxItems schema) = true
       /\ well_formed_bound (minItems schema) = true
       /\ match items schema with
          | Some itemSchema => well_formed R itemSchema
          | None => False
          end
  else if strict_equals (type schema) (JSString "object")
  then match properties schema with
       | Some props =>
           lookup "hasOwnProperty" props = None
           /\ all_declared props (required schema)
           /\ Forall (fun entry => well_formed R (snd entry)) props
       | None => False
       end
  else False.
Proof.
  destruct schema as [? ? ? ? ? ? ? ? ? ? ? ? ? ? ? ps ?]. cbn [well_formed].
  repeat match goal with |- (if ?c then _ else _) <-> _ => destruct c; [reflexivity|] end.
  destruct (strict_equals _ _); [|reflexivity].
  cbn [properties required].
  destruct ps as [props|]; [|reflexivity].
  assert (Heach : (fix each (entries : list (string * JSONSchema)) : Prop :=
                     match entries with
                     | [] => True
                     | (_, propertySchema) :: rest =>
                         well_formed R propertySchema /\ each rest
                     end) props
                  <-> Forall (fun entry => well_formed R (snd entry)) props).
  { induction props as [|[k s] props IH].
    - split; auto.
    - rewrite IH. split.
      + intros [H1 H2]. constructor; assumption.
      + intros H. inversion H; subst. split; assumption. }
  rewrite Heach. reflexivity.
Qed.

Lemma index_name_not_hasOwnProperty i : index_name i <> "hasOwnProperty".
Proof.
  unfold index_name. intros H.
  pose proof (NilEmpty.usu (Nat.to_uint i)) as Hu.
  rewrite H in Hu. discriminate Hu.
Qed.

Lemma lookup_In {A : Type} k (l : list (string * A)) v :
  lookup k l = Some v -> In (k, v) l.
Proof.
  induction l as [|[k' a] l IH]; cbn [lookup]; [discriminate|].
  destruct (String.eqb k k') eqn:E.
  - apply String.eqb_eq in E. subst k'. intros H. injection H as <-. left. reflexivity.
  - intros H. right. apply IH, H.
Qed.

Lemma indexed_In elements k v :
  In (k, v) (indexed elements) -> (exists i, k = index_name i) /\ In v elements.
Proof.
  unfold indexed. intros H. apply in_map_iff in H.
  destruct H as [[i x] [Heq Hin]]. simpl in Heq. injection Heq as <- <-.
  split; [exists i; reflexivity|].
  apply in_combine_r in Hin. exact Hin.
Qed.

Lemma indexed_no_hasOwnProperty elements :
  lookup "hasOwnProperty" (indexed elements) = None.
Proof.
  destruct (lookup "hasOwnProperty" (indexed elements)) as [v|] eqn:E; [|reflexivity].
  apply lookup_In, indexed_In in E. destruct E as [[i Hi] _].
  symmetry in Hi. now apply index_name_not_hasOwnProperty in Hi.
Qed.

Lemma data_hasOwnProperty_plain data p :
  plain data = true ->
  data_hasOwnProperty data p = Return (is_some (own_property data p)).
Proof.
  intros Hp. unfold data_hasOwnProperty, call_hasOwnProperty.
  assert (E : is_some (own_property data "hasOwnProperty") = false).
  { destruct data; try reflexivity.
    - cbn. rewrite indexed_no_hasOwnProperty. reflexivity.
    - cbn in Hp |- *. apply andb_prop in Hp. destruct Hp as [Hp _].
      apply negb_true_iff in Hp. exact Hp. }
  rewrite E. reflexivity.
Qed.

Lemma get_plain data p : plain data = true -> plain (get data p) = true.
Proof.
  intros Hp. unfold get.
  destruct (own_property data p) as [v|] eqn:E; [|reflexivity]. cbn [field].
  destruct data; cbn in E; try discriminate.
  - destruct (String.eqb p "length"); [injection E as <-; reflexivity|].
    apply lookup_In, indexed_In in E. destruct E as [_ Hin].
    cbn in Hp. rewrite forallb_forall in Hp. apply Hp, Hin.
  - apply lookup_In in E. cbn in Hp. apply andb_prop in Hp. destruct Hp as [_ Hp].
    rewrite forallb_forall in Hp. apply (Hp (p, v) E).
Qed.

Lemma validateString_returns R data schema :
  well_formed_bound (maxLength schema) = true ->
  well_formed_bound (minLength schema) = true ->
  match pattern schema with
  | Some pattern => pattern <> "" -> compiles R pattern
  | None => True
  end ->
  exists b, validateString R data schema = Return b.
Proof.
  intros Hmax Hmin Hpat. unfold validateString.
  destruct data; try (eexists; reflexivity).
  destruct (validateConst (JSString s) schema); [|eexists; reflexivity].
  destruct (validateEnum (JSString s) schema); [|eexists; reflexivity].
  cbn [bind].
  destruct (bound_check_well_formed (length_of (JSString s)) (maxLength schema)
              "'maxLength' must be a non-negative integer." js_gt Hmax) as [[|] E1];
    rewrite E1; cbn [bind]; [|eexists; reflexivity].
  destruct (bound_check_well_formed (length_of (JSString s)) (minLength schema)
              "'minLength' must be a non-negative integer." js_lt Hmin) as [[|] E2];
    rewrite E2; cbn [bind]; [|eexists; reflexivity].
  destruct (pattern schema) as [p|]; [|eexists; reflexivity].
  cbn [ToBoolean]. destruct (String.eqb p "") eqn:Ep; cbn [negb bind].
  - eexists; reflexivity.
  - apply String.eqb_neq in Ep. destruct (Hpat Ep s) as [m Hm]. rewrite Hm.
    destruct m; eexists; reflexivity.
Qed.

Lemma validateNumber_returns data schema :
  match multipleOf schema with
  | Some m => js_le m 0 = false
  | None => True
  end ->
  exists b, validateNumber data schema = Return b.
Proof.
  intros Hm. unfold validateNumber.
  destruct data; try (eexists; reflexivity).
  destruct (strict_equals (type schema) (JSString "integer") && negb (Number_isInteger n));
    [eexists; reflexivity|].
  destruct (validateConst (JSNumber n) schema); [|eexists; reflexivity].
  destruct (validateEnum (JSNumber n) schema); [|eexists; reflexivity].
  cbn [bind].
  assert (E : exists ok : bool,
             match multipleOf schema with
             | Some multipleOf =>
                 if js_le multipleOf 0
                 then Throw (Error "'multipleOf' must be a number strictly greater than 0.")
                 else Return (Number_isInteger (n / multipleOf))
             | None => Return true
             end = Return ok).
  { destruct (multipleOf schema) as [m|]; [rewrite Hm|]; eexists; reflexivity. }
  destruct E as [[|] E]; rewrite E; cbn [bind]; [|eexists; reflexivity].
  repeat match goal with |- context [if ?c then _ else _] => destruct c end;
    eexists; reflexivity.
Qed.

Lemma validateBoolean_returns data schema :
  exists b, validateBoolean data schema = Return b.
Proof.
  unfold validateBoolean. destruct data; try (eexists; reflexivity).
  destruct (validateConst (JSBoolean b) schema); eexists; reflexivity.
Qed.

Lemma validateArray_returns this_validate data schema itemSchema :
  well_formed_bound (maxItems schema) = true ->
  well_formed_bound (minItems schema) = true ->
  items schema = Some itemSchema ->
  (forall value, In value (match data with JSArray _ l => l | _ => [] end) ->
     exists r, this_validate value itemSchema = Return r) ->
  exists b, validateArray this_validate data schema = Return b.
Proof.
  intros Hmax Hmin Hi Hall. unfold validateArray.
  destruct data; try (eexists; reflexivity).
  destruct (bound_check_well_formed (length_of (JSArray ref elements)) (maxItems schema)
              "'maxItems' must be a non-negative integer." js_gt Hmax) as [[|] E1];
    rewrite E1; cbn [bind]; [|eexists; reflexivity].
  destruct (bound_check_well_formed (length_of (JSArray ref elements)) (minItems schema)
              "'minItems' must be a non-negative integer." js_lt Hmin) as [[|] E2];
    rewrite E2; cbn [bind]; [|eexists; reflexivity].
  assert (Eu : exists ok : bool,
             match uniqueItems schema with
             | Some true =>
                 Return (Nat.eqb (List.length elements) (Set_size (new_Set elements)))
             | _ => Return true
             end = Return ok).
  { destruct (uniqueItems schema) as [[|]|]; eexists; reflexivity. }
  destruct Eu as [[|] Eu]; rewrite Eu; cbn [bind]; [|eexists; reflexivity].
  clear E1 E2 Eu. induction elements as [|v l IH]; cbn [validateArray_loop].
  - eexists; reflexivity.
  - unfold validate_item. rewrite Hi.
    destruct (Hall v (or_introl eq_refl)) as [r Hr]. rewrite Hr. cbn [bind].
    destruct (ToBoolean r); cbn [negb]; [|eexists; reflexivity].
    apply IH. intros value Hin. apply Hall. right. exact Hin.
Qed.

Lemma validateRequired_loop_returns data props names :
  plain data = true ->
  lookup "hasOwnProperty" props = None ->
  (forall q, In q names -> is_some (lookup q props) = true) ->
  exists b, validateRequired_loop data props names = Return b.
Proof.
  intros Hp Hh Hd. induction names as [|q names IH]; cbn [validateRequired_loop].
  - eexists; reflexivity.
  - unfold properties_hasOwnProperty, call_hasOwnProperty. rewrite Hh. cbn [is_some].
    rewrite (Hd q (or_introl eq_refl)). cbn [bind negb].
    rewrite (data_hasOwnProperty_plain _ _ Hp). cbn [bind].
    destruct (is_some (own_property data q)); [|eexists; reflexivity].
    apply IH. intros q' Hq'. apply Hd. right. exact Hq'.
Qed.

Lemma validateObject_loop_returns this_validate data all rest :
  plain data = true ->
  lookup "hasOwnProperty" all = None ->
  Forall (fun entry => forall value, plain value = true ->
            exists r, this_validate value (snd entry) = Return r) rest ->
  exists b, validateObject_loop this_validate data all rest = Return b.
Proof.
  intros Hp Hh Hall. induction Hall as [|[k s] rest Hs _ IH]; cbn [validateObject_loop].
  - eexists; reflexivity.
  - unfold properties_hasOwnProperty, call_hasOwnProperty. rewrite Hh. cbn [is_some bind].
    destruct (is_some (lookup k all)); cbn [bind]; [|exact IH].
    rewrite (data_hasOwnProperty_plain _ _ Hp). cbn [bind].
    destruct (is_some (own_property data k)); [|exact IH].
    destruct (Hs (get data k) (get_plain _ _ Hp)) as [r Hr]. cbn [snd] in Hr.
    rewrite Hr. cbn [bind].
    destruct (ToBoolean r); cbn [negb]; [exact IH|eexists; reflexivity].
Qed.

Lemma validateObject_returns this_validate data schema props :
  plain data = true ->
  properties schema = Some props ->
  lookup "hasOwnProperty" props = None ->
  all_declared props (required schema) ->
  Forall (fun entry => forall value, plain value = true ->
            exists r, this_validate value (snd entry) = Return r) props ->
  exists b, validateObject this_validate data schema = Return b.
Proof.
  intros Hp Hprops Hh Hd Hall. unfold validateObject.
  destruct (strict_equals data JSNull || negb (typeof data =? "object"));
    [eexists; reflexivity|].
  rewrite Hprops.
  destruct (List.length (map fst props) <? List.length (Object_keys data))%nat;
    [eexists; reflexivity|].
  assert (Er : exists ok, validateRequired data schema = Return ok).
  { unfold validateRequired. rewrite Hprops.
    destruct (required schema) as [names|]; [|eexists; reflexivity].
    apply validateRequired_loop_returns; assumption. }
  destruct Er as [[|] Er]; rewrite Er; cbn [bind]; [|eexists; reflexivity].
  apply validateObject_loop_returns; assumption.
Qed.

(** The documented contract of [validate]: it throws only if the schema is
    invalid.  On a well-formed schema and plain data the call returns, and
    what it returns is a boolean. *)
Theorem well_formed_schema_returns_boolean R schema :
  well_formed R schema ->
  forall data, plain data = true ->
  exists b, validate R data schema = Return (JSBoolean b).
Proof.
  induction schema as [schema IHitems IHprops] using JSONSchema_nested_ind.
  intros Hwf data Hp. apply well_formed_unfold in Hwf. rewrite validate_unfold.
  assert (lift : forall c, (exists b, c = Return b) ->
                 exists b, boolean c = Return (JSBoolean b))
    by (intros c [b ->]; exists b; reflexivity).
  destruct (strict_equals (type schema) (JSString "string")).
  { destruct Hwf as (H1 & H2 & H3). apply lift, validateString_returns; assumption. }
  destruct (strict_equals (type schema) (JSString "number")
            || strict_equals (type schema) (JSString "integer")).
  { apply lift, validateNumber_returns, Hwf. }
  destruct (strict_equals (type schema) (JSString "boolean")).
  { apply lift, validateBoolean_returns. }
  destruct (strict_equals (type schema) (JSString "array")).
  { destruct Hwf as (H1 & H2 & H3).
    destruct (items schema) as [itemSchema|] eqn:Ei; [|contradiction].
    apply lift, (validateArray_returns _ _ _ itemSchema H1 H2 Ei).
    intros value Hin.
    assert (Hv : plain value = true).
    { destruct data; try contradiction. cbn in Hp.
      rewrite forallb_forall in Hp. apply Hp, Hin. }
    destruct (IHitems itemSchema eq_refl H3 value Hv) as [b Hb]. eexists; exact Hb. }
  destruct (strict_equals (type schema) (JSString "object")); [|contradiction].
  destruct (properties schema) as [props|] eqn:Eprops; [|contradiction].
  destruct Hwf as (H1 & H2 & H3).
  apply lift, (validateObject_returns _ _ _ props Hp Eprops H1 H2).
  specialize (IHprops props eq_refl).
  rewrite Forall_forall in *. intros entry Hin value Hv.
  destruct (IHprops entry Hin (H3 entry Hin) value Hv) as [b Hb]. eexists; exact Hb.
Qed.

Lemma well_formed_schema_returns_boolean_witness :
  exists b,
    validate no_RegExp
      (JSObject 0 [("tags", JSArray 1 [JSString "a"]); ("n", JSNumber 3)])
      (JSONSchemaObject
         [("tags", JSONSchemaArray string_schema (Some 4%float) None (Some true));
          ("n", JSONSchemaInteger None None (Some 3%float) None None None None)]
         (Some ["n"]))
    = Return (JSBoolean b).
Proof.
  apply well_formed_schema_returns_boolean; [|reflexivity].
  apply well_formed_unfold. cbv beta iota delta [type strict_equals String.eqb Ascii.eqb
    Bool.eqb JSONSchemaObject orb properties required].
  refine (conj eq_refl (conj _ _)).
  - intros q [<- | []]. reflexivity.
  - repeat constructor; vm_compute; auto.
Defined.

(** ** Data that hides [hasOwnProperty] *)

(** An object with an own property named hasOwnProperty makes the validator
    throw a [TypeError] on an object schema that declares at least one
    property, however well formed the schema: [data.hasOwnProperty] is then
    the stored value, and calling it fails. *)
Theorem own_hasOwnProperty_throws R ref ps schema k s rest v :
  type schema = JSString "object" ->
  properties schema = Some ((k, s) :: rest) ->
  lookup "hasOwnProperty" ((k, s) :: rest) = None ->
  all_declared ((k, s) :: rest) (required schema) ->
  lookup "hasOwnProperty" ps = Some v ->
  List.length ps <= List.length ((k, s) :: rest) ->
  validate R (JSObject ref ps) schema
  = Throw (TypeError "hasOwnProperty is not a function").
Proof.
  intros Ht Hp Hh Hd Hv Hcount.
  rewrite (validate_object _ _ _ Ht).
  rewrite (validateObject_reaches_required _ (JSObject ref ps) _ _ eq_refl Hp)
    by (unfold Object_keys; cbn [enumerable]; rewrite length_map; exact Hcount).
  assert (Hdata : forall q, data_hasOwnProperty (JSObject ref ps) q
                            = Throw (TypeError "hasOwnProperty is not a function")).
  { intros q. unfold data_hasOwnProperty, call_hasOwnProperty.
    cbn [own_property enumerable]. rewrite Hv. reflexivity. }
  assert (Hprops : forall q, properties_hasOwnProperty ((k, s) :: rest) q
                             = Return (is_some (lookup q ((k, s) :: rest)))).
  { intros q. unfold properties_hasOwnProperty, call_hasOwnProperty.
    rewrite Hh. reflexivity. }
  unfold validateRequired. rewrite Hp.
  destruct (required schema) as [[|q names]|]; cbn [validateRequired_loop bind].
  - cbn [validateObject_loop]. rewrite Hprops. cbn [lookup].
    rewrite String.eqb_refl. cbn [is_some bind]. rewrite Hdata. reflexivity.
  - rewrite Hprops, (Hd q (or_introl eq_refl)). cbn [bind negb].
    rewrite Hdata. reflexivity.
  - cbn [validateObject_loop]. rewrite Hprops. cbn [lookup].
    rewrite String.eqb_refl. cbn [is_some bind]. rewrite Hdata. reflexivity.
Qed.

Lemma own_hasOwnProperty_throws_witness :
  validate no_RegExp (JSObject 0 [("hasOwnProperty", JSBoolean true)])
    (JSONSchemaObject [("name", string_schema)] None)
  = Throw (TypeError "hasOwnProperty is not a function").
Proof.
  apply (own_hasOwnProperty_throws no_RegExp 0 _ _ "name" string_schema []
           (JSBoolean true)); reflexivity.
Defined.

(** ** [const] and [enum] *)

(** A [const] that is truthy is enforced: data that is not strictly equal to
    it gets [false], and nothing is thrown, since the comparison comes before
    every bound. *)
Theorem truthy_const_enforced R data schema c :
  In (type schema) [JSString "string"; JSString "number"; JSString "integer";
                    JSString "boolean"] ->
  const schema = Some c ->
  ToBoolean c = true ->
  strict_equals data c = false ->
  validate R data schema = Return (JSBoolean false).
Proof.
  intros Ht Hc Htruthy Hne.
  assert (E : validateConst data schema = false).
  { unfold validateConst. rewrite Hc. cbn [field]. rewrite Htruthy. exact Hne. }
  cbn [In] in Ht. destruct Ht as [Ht | [Ht | [Ht | [Ht | []]]]]; symmetry in Ht.
  - rewrite (validate_string _ _ _ Ht). unfold validateString.
    destruct data; try reflexivity. rewrite E. reflexivity.
  - rewrite (validate_number _ _ _ (or_introl Ht)). unfold validateNumber.
    destruct data; try reflexivity. rewrite E.
    destruct (strict_equals (type schema) (JSString "integer") && negb (Number_isInteger n));
      reflexivity.
  - rewrite (validate_number _ _ _ (or_intror Ht)). unfold validateNumber.
    destruct data; try reflexivity. rewrite E.
    destruct (strict_equals (type schema) (JSString "integer") && negb (Number_isInteger n));
      reflexivity.
  - rewrite (validate_boolean _ _ _ Ht). unfold validateBoolean.
    destruct data; try reflexivity. rewrite E. reflexivity.
Qed.

Lemma truthy_const_enforced_witness :
  validate no_RegExp (JSString "b")
    (JSONSchemaString (Some (JSString "a")) None (Some (-1)%float) None None)
  = Return (JSBoolean false).
Proof.
  apply (truthy_const_enforced no_RegExp _ _ (JSString "a")); try reflexivity.
  left. reflexivity.
Defined.

Lemma indexOf_found values x :
  negb (Array_indexOf values x =? -1)%Z = existsb (fun v => strict_equals v x) values.
Proof.
  unfold Array_indexOf.
  assert (G : forall l j, (0 <= j)%Z ->
              negb (indexOf_from j l x =? -1)%Z = existsb (fun v => strict_equals v x) l).
  { induction l as [|v l IH]; intros j Hj; cbn [indexOf_from existsb].
    - reflexivity.
    - destruct (strict_equals v x); cbn [orb].
      + destruct (Z.eqb_spec j (-1)%Z); [lia|reflexivity].
      + apply IH. lia. }
  apply G. lia.
Qed.

(** [enum] is a membership test by strict equality.  Data of a string, number
    or integer schema that is strictly equal to no listed value gets [false],
    whatever else the schema holds; and for a string schema that carries
    nothing but [enum], a string is valid exactly when it is listed. *)
Theorem enum_is_membership R :
  (forall data schema values,
     In (type schema) [JSString "string"; JSString "number"; JSString "integer"] ->
     enum schema = Some values ->
     existsb (fun v => strict_equals v data) values = false ->
     validate R data schema = Return (JSBoolean false))
  /\ (forall s values,
        validate R (JSString s) (JSONSchemaString None (Some values) None None None)
        = Return (JSBoolean (existsb (fun v => strict_equals v (JSString s)) values))).
Proof.
  split.
  - intros data schema values Ht He Hno.
    assert (E : validateEnum data schema = false).
    { unfold validateEnum. rewrite He, indexOf_found. exact Hno. }
    cbn [In] in Ht. destruct Ht as [Ht | [Ht | [Ht | []]]]; symmetry in Ht.
    + rewrite (validate_string _ _ _ Ht). unfold validateString.
      destruct data; try reflexivity. rewrite E.
      destruct (validateConst (JSString s) schema); reflexivity.
    + rewrite (validate_number _ _ _ (or_introl Ht)). unfold validateNumber.
      destruct data; try reflexivity. rewrite E.
      destruct (strict_equals (type schema) (JSString "integer")
                && negb (Number_isInteger n)); [reflexivity|].
      destruct (validateConst (JSNumber n) schema); reflexivity.
    + rewrite (validate_number _ _ _ (or_intror Ht)). unfold validateNumber.
      destruct data; try reflexivity. rewrite E.
      destruct (strict_equals (type schema) (JSString "integer")
                && negb (Number_isInteger n)); [reflexivity|].
      destruct (validateConst (JSNumber n) schema); reflexivity.
  - intros s values. rewrite validate_string by reflexivity.
    unfold validateString, validateEnum, validateConst, JSONSchemaString.
    cbn [const enum maxLength minLength pattern field ToBoolean negb bind].
    rewrite indexOf_found.
    destruct (existsb (fun v => strict_equals v (JSString s)) values); reflexivity.
Qed.

Lemma enum_is_membership_witness :
  validate no_RegExp (JSString "c")
    (JSONSchemaString None (Some [JSString "a"; JSString "b"]) None (Some 1.5%float) None)
  = Return (JSBoolean false).
Proof.
  apply (proj1 (enum_is_membership no_RegExp) _ _ [JSString "a"; JSString "b"]);
    try reflexivity.
  left. reflexivity.
Defined.

(** ** Numbers at the edges *)

Lemma SFcompare_nan_r f : SFcompare f S754_nan = None.
Proof. destruct f; reflexivity. Qed.

Lemma float_eqb_nan_r x : PrimFloat.eqb x nan = false.
Proof.
  rewrite FloatAxioms.eqb_spec, Prim2SF_nan. unfold SFeqb.
  rewrite SFcompare_nan_r. reflexivity.
Qed.

Lemma js_comparisons_nan b :
  js_gt nan b = false /\ js_ge nan b = false
  /\ js_lt nan b = false /\ js_le nan b = false.
Proof.
  unfold js_gt, js_ge, js_lt, js_le.
  rewrite !FloatAxioms.ltb_spec, !FloatAxioms.leb_spec, Prim2SF_nan.
  unfold SFltb, SFleb. rewrite SFcompare_nan_r. cbn. auto.
Qed.

Lemma strict_equals_nan v : strict_equals v (JSNumber nan) = false.
Proof. destruct v; try reflexivity. apply float_eqb_nan_r. Qed.

(** [NaN] is never a member of an [enum]: [indexOf] compares with [===], so
    a number schema with an [enum] turns [NaN] away even when the list holds
    [NaN]. *)
Theorem enum_never_lists_NaN R schema values :
  type schema = JSString "number" \/ type schema = JSString "integer" ->
  enum schema = Some values ->
  validate R (JSNumber nan) schema = Return (JSBoolean false).
Proof.
  intros Ht He.
  assert (E : validateEnum (JSNumber nan) schema = false).
  { unfold validateEnum. rewrite He, indexOf_found. clear He.
    induction values as [|v l IH]; cbn [existsb]; [reflexivity|].
    rewrite strict_equals_nan. exact IH. }
  rewrite (validate_number _ _ _ Ht). unfold validateNumber. rewrite E.
  destruct (strict_equals (type schema) (JSString "integer")
            && negb (Number_isInteger nan)); [reflexivity|].
  destruct (validateConst (JSNumber nan) schema); reflexivity.
Qed.

Lemma enum_never_lists_NaN_witness :
  validate no_RegExp (JSNumber nan)
    (JSONSchemaNumber None (Some [JSNumber nan; JSNumber 1]) None None None None None)
  = Return (JSBoolean false).
Proof.
  apply (enum_never_lists_NaN no_RegExp _ [JSNumber nan; JSNumber 1]);
    [left|]; reflexivity.
Defined.

(** An integer schema is the number schema with the same constraints,
    restricted to numbers without a fractional part: every other number,
    [NaN] and the infinities included, gets [false]. *)
Theorem integer_schema_restricts_number R d const enum multipleOf
    maximum exclusiveMaximum minimum exclusiveMinimum :
  validate R (JSNumber d)
    (JSONSchemaInteger const enum multipleOf maximum exclusiveMaximum minimum exclusiveMinimum)
  = if Number_isInteger d
    then validate R (JSNumber d)
           (JSONSchemaNumber const enum multipleOf maximum exclusiveMaximum minimum
              exclusiveMinimum)
    else Return (JSBoolean false).
Proof.
  rewrite !validate_number by (auto; right; reflexivity).
  unfold validateNumber, JSONSchemaInteger. cbn [type strict_equals String.eqb].
  change (String.eqb "integer" "integer") with true.
  cbn [andb].
  destruct (Number_isInteger d); reflexivity.
Qed.

(** [NaN] passes every range check: each comparison with [NaN] is false, so
    a number schema that carries only [maximum], [exclusiveMaximum],
    [minimum] and [exclusiveMinimum] accepts it, whatever the bounds. *)
Theorem NaN_passes_every_range R (max xmax min xmin : option float) :
  validate R (JSNumber nan) (JSONSchemaNumber None None None max xmax min xmin)
  = Return (JSBoolean true).
Proof.
  rewrite validate_number by (left; reflexivity).
  assert (H : forall bound cmp, (forall b, cmp nan b = false) -> exceeds bound cmp nan = false)
    by (intros [b|] cmp Hc; [apply Hc|reflexivity]).
  unfold validateNumber, JSONSchemaNumber.
  cbn [type const enum multipleOf maximum exclusiveMaximum minimum exclusiveMinimum].
  rewrite (H max js_gt) by (intros b; apply js_comparisons_nan).
  rewrite (H xmax js_ge) by (intros b; apply js_comparisons_nan).
  rewrite (H min js_lt) by (intros b; apply js_comparisons_nan).
  rewrite (H xmin js_le) by (intros b; apply js_comparisons_nan).
  reflexivity.
Qed.

(** A [multipleOf] that is [NaN] is not reported as malformed ([NaN <= 0] is
    false); it turns away every number instead. *)
Theorem multipleOf_NaN_rejects_all R d :
  validate R (JSNumber d) (multipleOf_schema nan) = Return (JSBoolean false).
Proof.
  rewrite validate_number by (left; reflexivity).
  unfold validateNumber, multipleOf_schema, JSONSchemaNumber.
  cbn [type const enum multipleOf strict_equals String.eqb].
  change (validateConst (JSNumber d) _) with true.
  change (validateEnum (JSNumber d) _) with true.
  cbn [andb bind]. change (js_le nan 0) with false. cbn [bind].
  rewrite Number_isInteger_over_nan. reflexivity.
Qed.

(** Zero is a multiple of every positive [multipleOf], the infinite one
    included. *)
Theorem zero_is_multiple_of_every_positive R m :
  js_lt 0 m = true ->
  validate R (JSNumber 0) (multipleOf_schema m) = Return (JSBoolean true).
Proof.
  intros Hpos.
  assert (Hm : exists f, Prim2SF m = f /\
                 (f = S754_infinity false \/ exists mm e, f = S754_finite false mm e)).
  { unfold js_lt in Hpos. rewrite FloatAxioms.ltb_spec in Hpos.
    change (Prim2SF 0) with (S754_zero false) in Hpos. unfold SFltb in Hpos.
    exists (Prim2SF m). split; [reflexivity|].
    destruct (Prim2SF m) as [s|s| |s mm e]; cbn in Hpos; try discriminate.
    - destruct s; [discriminate|]. left. reflexivity.
    - destruct s; [discriminate|]. right. eauto. }
  destruct Hm as (f & Hf & Hshape).
  assert (Hle : js_le m 0 = false).
  { unfold js_le. rewrite FloatAxioms.leb_spec, Hf.
    change (Prim2SF 0) with (S754_zero false).
    destruct Hshape as [-> | (mm & e & ->)]; reflexivity. }
  assert (Hq : Number_isInteger (0 / m) = true).
  { unfold Number_isInteger. rewrite FloatAxioms.div_spec, Hf.
    change (Prim2SF 0) with (S754_zero false).
    destruct Hshape as [-> | (mm & e & ->)]; reflexivity. }
  rewrite validate_number by (left; reflexivity).
  unfold validateNumber, multipleOf_schema, JSONSchemaNumber.
  cbn [type const enum multipleOf strict_equals String.eqb].
  change (validateConst (JSNumber 0) _) with true.
  change (validateEnum (JSNumber 0) _) with true.
  cbn [andb bind]. rewrite Hle. cbn [bind]. rewrite Hq. reflexivity.
Qed.

Lemma zero_is_multiple_of_every_positive_witness :
  validate no_RegExp (JSNumber 0) (multipleOf_schema 0.1) = Return (JSBoolean true).
Proof. apply zero_is_multiple_of_every_positive. reflexivity. Defined.

(** ** Arrays, element by element *)

Lemma validateArray_loop_prefix this_validate schema itemSchema before rest :
  items schema = Some itemSchema ->
  (forall v, In v before -> this_validate v itemSchema = Return (JSBoolean true)) ->
  validateArray_loop this_validate schema (before ++ rest)
  = validateArray_loop this_validate schema rest.
Proof.
  intros Hi Hb. induction before as [|v l IH]; cbn [app validateArray_loop]; [reflexivity|].
  unfold validate_item. rewrite Hi, (Hb v (or_introl eq_refl)). cbn [bind ToBoolean negb].
  apply IH. intros v' Hv'. apply Hb. right. exact Hv'.
Qed.

Lemma validateArray_reaches_items this_validate ref elements schema :
  reaches_items (JSArray ref elements) schema = true ->
  validateArray this_validate (JSArray ref elements) schema
  = validateArray_loop this_validate schema elements.
Proof.
  unfold reaches_items, validateArray, within_max, within_min, passes_uniqueItems.
  intros H. apply andb_prop in H. destruct H as [H Hu].
  apply andb_prop in H. destruct H as [Hmax Hmin].
  destruct (maxItems schema) as [b|].
  - apply andb_prop in Hmax. destruct Hmax as [H1 H2].
    apply negb_true_iff in H1. rewrite H1, H2. cbn [bind].
    destruct (minItems schema) as [b'|].
    + apply andb_prop in Hmin. destruct Hmin as [H3 H4].
      apply negb_true_iff in H3. rewrite H3, H4. cbn [bind].
      destruct (uniqueItems schema) as [[|]|]; [rewrite Hu| |]; reflexivity.
    + cbn [bind]. destruct (uniqueItems schema) as [[|]|]; [rewrite Hu| |]; reflexivity.
  - cbn [bind]. destruct (minItems schema) as [b'|].
    + apply andb_prop in Hmin. destruct Hmin as [H3 H4].
      apply negb_true_iff in H3. rewrite H3, H4. cbn [bind].
      destruct (uniqueItems schema) as [[|]|]; [rewrite Hu| |]; reflexivity.
    + cbn [bind]. destruct (uniqueItems schema) as [[|]|]; [rewrite Hu| |]; reflexivity.
Qed.

(** For an array that passes the [maxItems], [minItems] and [uniqueItems]
    checks of an array schema, the elements are validated in order against
    [items], and the first one that is not valid decides: if every element
    is valid the array is valid; if the first element that is not valid gets
    [false] (or [undefined]) the array gets [false]; if it throws, the error
    leaves [validate]; in both cases the elements after it are not looked
    at. *)
Theorem array_first_invalid_element_decides R ref schema itemSchema :
  type schema = JSString "array" ->
  items schema = Some itemSchema ->
  (forall elements,
     reaches_items (JSArray ref elements) schema = true ->
     (forall v, In v elements -> validate R v itemSchema = Return (JSBoolean true)) ->
     validate R (JSArray ref elements) schema = Return (JSBoolean true))
  /\ (forall before x after r,
        reaches_items (JSArray ref (before ++ x :: after)) schema = true ->
        (forall v, In v before -> validate R v itemSchema = Return (JSBoolean true)) ->
        validate R x itemSchema = Return r -> ToBoolean r = false ->
        validate R (JSArray ref (before ++ x :: after)) schema = Return (JSBoolean false))
  /\ (forall before x after e,
        reaches_items (JSArray ref (before ++ x :: after)) schema = true ->
        (forall v, In v before -> validate R v itemSchema = Return (JSBoolean true)) ->
        validate R x itemSchema = Throw e ->
        validate R (JSArray ref (before ++ x :: after)) schema = Throw e).
Proof.
  intros Ht Hi. refine (conj _ (conj _ _)).
  - intros elements Hreach Hall.
    rewrite (validate_array _ _ _ Ht), (validateArray_reaches_items _ _ _ _ Hreach).
    rewrite <- (app_nil_r elements).
    rewrite (validateArray_loop_prefix (validate R) schema itemSchema elements [] Hi Hall).
    reflexivity.
  - intros before x after r Hreach Hb Hx Hr.
    rewrite (validate_array _ _ _ Ht), (validateArray_reaches_items _ _ _ _ Hreach).
    rewrite (validateArray_loop_prefix (validate R) schema itemSchema before _ Hi Hb).
    cbn [validateArray_loop]. unfold validate_item. rewrite Hi, Hx. cbn [bind].
    rewrite Hr. reflexivity.
  - intros before x after e Hreach Hb Hx.
    rewrite (validate_array _ _ _ Ht), (validateArray_reaches_items _ _ _ _ Hreach).
    rewrite (validateArray_loop_prefix (validate R) schema itemSchema before _ Hi Hb).
    cbn [validateArray_loop]. unfold validate_item. rewrite Hi, Hx. reflexivity.
Qed.

Lemma array_first_invalid_element_decides_witness :
  validate no_RegExp (JSArray 0 [JSNumber 1; JSNumber 2])
    (JSONSchemaArray integer_schema (Some 2%float) (Some 1%float) (Some true))
  = Return (JSBoolean true)
  /\ validate no_RegExp (JSArray 0 [JSNumber 1; JSNumber 1.5; JSNull])
       (JSONSchemaArray integer_schema (Some 3%float) None (Some true))
     = Return (JSBoolean false)
  /\ validate no_RegExp (JSArray 0 [JSNumber 1; JSNumber 2; JSNumber 1.5])
       (JSONSchemaArray (JSONSchemaInteger None None (Some 0%float) None None None None)
          None None None)
     = Throw (Error "'multipleOf' must be a number strictly greater than 0.").
Proof.
  refine (conj _ (conj _ _)).
  - apply (proj1 (array_first_invalid_element_decides no_RegExp 0
                    (JSONSchemaArray integer_schema (Some 2%float) (Some 1%float) (Some true))
                    integer_schema eq_refl eq_refl)); [reflexivity|].
    intros v [<- | [<- | []]]; reflexivity.
  - apply (proj1 (proj2 (array_first_invalid_element_decides no_RegExp 0
                    (JSONSchemaArray integer_schema (Some 3%float) None (Some true))
                    integer_schema eq_refl eq_refl))
             [JSNumber 1] (JSNumber 1.5) [JSNull] (JSBoolean false)); try reflexivity.
    intros v [<- | []]; reflexivity.
  - apply (proj2 (proj2 (array_first_invalid_element_decides no_RegExp 0
                    (JSONSchemaArray
                       (JSONSchemaInteger None None (Some 0%float) None None None None)
                       None None None)
                    (JSONSchemaInteger None None (Some 0%float) None None None None)
                    eq_refl eq_refl))
             [] (JSNumber 1) [JSNumber 2; JSNumber 1.5]); try reflexivity.
    intros v [].
Defined.

(** The switch of [validate] falls through on a type tag it has no case for. *)
Lemma validate_falls_through R data schema :
  forallb (fun t => negb (strict_equals (type schema) (JSString t))) recognized = true ->
  validate R data schema = Return JSUndefined.
Proof.
  intros H. rewrite validate_unfold. cbn [forallb recognized] in H.
  repeat (apply andb_prop in H; destruct H as [?E H]).
  repeat match goal with
  | E : negb _ = true |- _ => apply negb_true_iff in E; rewrite E; clear E
  end.
  reflexivity.
Qed.

(** Inside an array the missing default case shows as a rejection.  Take an
    array schema whose [items] schema has a type tag that is not recognized,
    and whose [maxItems] and [minItems] are missing or well formed: every
    non-empty array gets [false], since the [undefined] of the nested call is
    falsy, and the empty array is valid exactly when it passes the [minItems]
    check. *)
Theorem unrecognized_items_reject_elements R ref schema itemSchema :
  type schema = JSString "array" ->
  items schema = Some itemSchema ->
  forallb (fun t => negb (strict_equals (type itemSchema) (JSString t))) recognized = true ->
  well_formed_bound (maxItems schema) = true ->
  well_formed_bound (minItems schema) = true ->
  validate R (JSArray ref []) schema
  = Return (JSBoolean (within_min (length_of (JSArray ref [])) (minItems schema)))
  /\ forall x rest,
       validate R (JSArray ref (x :: rest)) schema = Return (JSBoolean false).
Proof.
  intros Ht Hi Hun Hmax Hmin. split.
  - rewrite (validate_array _ _ _ Ht).
    unfold validateArray, within_min, well_formed_bound in *.
    assert (E1 : match maxItems schema with
                 | Some maxItems =>
                     if not_a_length maxItems
                     then Throw (Error "'maxItems' must be a non-negative integer.")
                     else Return (negb (js_gt (length_of (JSArray ref [])) maxItems))
                 | None => Return true
                 end = Return true).
    { destruct (maxItems schema) as [b|]; [|reflexivity].
      apply negb_true_iff in Hmax. rewrite Hmax.
      unfold not_a_length in Hmax. apply orb_false_elim in Hmax. destruct Hmax as [_ Hneg].
      change (js_gt (length_of (JSArray ref [])) b) with (js_lt b 0).
      rewrite Hneg. reflexivity. }
    rewrite E1. cbn [bind].
    destruct (minItems schema) as [b|].
    + rewrite Hmin. apply negb_true_iff in Hmin. rewrite Hmin. cbn [andb bind].
      destruct (negb (js_lt (length_of (JSArray ref [])) b)); cbn [bind]; [|reflexivity].
      destruct (uniqueItems schema) as [[|]|]; reflexivity.
    + cbn [bind]. destruct (uniqueItems schema) as [[|]|]; reflexivity.
  - intros x rest. rewrite (validate_array _ _ _ Ht). unfold validateArray.
    destruct (bound_check_well_formed (length_of (JSArray ref (x :: rest))) (maxItems schema)
                "'maxItems' must be a non-negative integer." js_gt Hmax) as [[|] E1];
      rewrite E1; cbn [bind]; [|reflexivity].
    destruct (bound_check_well_formed (length_of (JSArray ref (x :: rest))) (minItems schema)
                "'minItems' must be a non-negative integer." js_lt Hmin) as [[|] E2];
      rewrite E2; cbn [bind]; [|reflexivity].
    assert (Eu : exists ok : bool,
               match uniqueItems schema with
               | Some true =>
                   Return (Nat.eqb (List.length (x :: rest))
                             (Set_size (new_Set (x :: rest))))
               | _ => Return true
               end = Return ok)
      by (destruct (uniqueItems schema) as [[|]|]; eexists; reflexivity).
    destruct Eu as [[|] Eu]; rewrite Eu; cbn [bind]; [|reflexivity].
    cbn [validateArray_loop]. unfold validate_item. rewrite Hi.
    rewrite (validate_falls_through _ _ _ Hun). reflexivity.
Qed.

Lemma unrecognized_items_reject_elements_witness :
  validate no_RegExp (JSArray 0 [])
    (JSONSchemaArray (mkSchema (JSString "null") None None None None None None None None None
                        None None None None None None None) None (Some 1%float) None)
  = Return (JSBoolean false)
  /\ validate no_RegExp (JSArray 0 [JSNull])
       (JSONSchemaArray (mkSchema (JSString "null") None None None None None None None None
                           None None None None None None None None) None (Some 1%float) None)
     = Return (JSBoolean false).
Proof.
  split.
  - exact (proj1 (unrecognized_items_reject_elements no_RegExp 0
                    (JSONSchemaArray
                       (mkSchema (JSString "null") None None None None None None None None
                          None None None None None None None None) None (Some 1%float) None)
                    _ eq_refl eq_refl eq_refl eq_refl eq_refl)).
  - exact (proj2 (unrecognized_items_reject_elements no_RegExp 0
                    (JSONSchemaArray
                       (mkSchema (JSString "null") None None None None None None None None
                          None None None None None None None None) None (Some 1%float) None)
                    _ eq_refl eq_refl eq_refl eq_refl eq_refl) JSNull []).
Defined.

(** ** [uniqueItems] on distinct elements *)

Lemma Set_add_all_distinct l s :
  (forall x y, In x s -> In y l -> SameValueZero x y = false) ->
  ForallOrdPairs (fun x y => SameValueZero x y = false) l ->
  fold_left Set_add l s = s ++ l.
Proof.
  revert s. induction l as [|v l IH]; intros s Hs Hl; cbn [fold_left].
  - rewrite app_nil_r. reflexivity.
  - inversion Hl as [|? ? Hv Hrest]; subst.
    assert (E : existsb (SameValueZero v) s = false).
    { destruct (existsb (SameValueZero v) s) eqn:E; [|reflexivity].
      apply existsb_exists in E. destruct E as [x [Hin Hx]].
      rewrite SameValueZero_sym, (Hs x v Hin (or_introl eq_refl)) in Hx. discriminate. }
    unfold Set_add at 2. rewrite E.
    rewrite IH; [rewrite <- app_assoc; reflexivity| |exact Hrest].
    intros x y Hx Hy. apply in_app_or in Hx. destruct Hx as [Hx | [<- | []]].
    + apply Hs; [exact Hx|right; exact Hy].
    + rewrite Forall_forall in Hv. apply Hv, Hy.
Qed.

Lemma validateArray_loop_items this_validate schema schema' elements :
  items schema = items schema' ->
  validateArray_loop this_validate schema elements
  = validateArray_loop this_validate schema' elements.
Proof.
  intros H. induction elements as [|v l IH]; cbn [validateArray_loop]; [reflexivity|].
  unfold validate_item. rewrite H, IH. reflexivity.
Qed.

(** When no two elements of an array are the same value for [Set],
    [uniqueItems: true] changes nothing: the array is validated as if the
    field were missing. *)
Theorem uniqueItems_accepts_distinct R ref elements itemSchema (most least : option float) :
  ForallOrdPairs (fun x y => SameValueZero x y = false) elements ->
  validate R (JSArray ref elements) (JSONSchemaArray itemSchema most least (Some true))
  = validate R (JSArray ref elements) (JSONSchemaArray itemSchema most least None).
Proof.
  intros Hd. rewrite !validate_array by reflexivity.
  unfold validateArray, JSONSchemaArray.
  cbn [maxItems minItems uniqueItems].
  assert (E : Nat.eqb (List.length elements) (Set_size (new_Set elements)) = true).
  { unfold new_Set, Set_size. rewrite (Set_add_all_distinct elements []).
    - apply Nat.eqb_refl.
    - intros x y [].
    - exact Hd. }
  rewrite E.
  rewrite (validateArray_loop_items (validate R)
             (mkSchema (JSString "array") None None None None None None None None None None
                (Some itemSchema) most least (Some true) None None)
             (mkSchema (JSString "array") None None None None None None None None None None
                (Some itemSchema) most least None None None) elements eq_refl).
  reflexivity.
Qed.

Lemma uniqueItems_accepts_distinct_witness :
  validate no_RegExp (JSArray 0 [JSArray 1 []; JSArray 2 []; JSNumber 0])
    (JSONSchemaArray integer_schema None None (Some true))
  = validate no_RegExp (JSArray 0 [JSArray 1 []; JSArray 2 []; JSNumber 0])
      (JSONSchemaArray integer_schema None None None).
Proof.
  apply uniqueItems_accepts_distinct.
  repeat constructor.
Defined.

(** ** Objects, property by property *)

Lemma properties_hasOwnProperty_plain props q :
  lookup "hasOwnProperty" props = None ->
  properties_hasOwnProperty props q = Return (is_some (lookup q props)).
Proof.
  intros H. unfold properties_hasOwnProperty, call_hasOwnProperty. rewrite H. reflexivity.
Qed.

Lemma In_lookup {A : Type} k (a : A) l : In (k, a) l -> is_some (lookup k l) = true.
Proof.
  induction l as [|[k' a'] l IH]; cbn [In lookup]; [intros []|].
  intros [H | H].
  - injection H as -> ->. rewrite String.eqb_refl. reflexivity.
  - destruct (String.eqb k k'); [reflexivity|]. apply IH, H.
Qed.

Lemma validateRequired_loop_missing data props names q :
  plain data = true ->
  lookup "hasOwnProperty" props = None ->
  (forall n, In n names -> is_some (lookup n props) = true) ->
  In q names ->
  own_property data q = None ->
  validateRequired_loop data props names = Return false.
Proof.
  intros Hp Hh Hd Hq Hmiss. induction names as [|n names IH]; [destruct Hq|].
  cbn [validateRequired_loop].
  rewrite (properties_hasOwnProperty_plain _ _ Hh), (Hd n (or_introl eq_refl)).
  cbn [bind negb]. rewrite (data_hasOwnProperty_plain _ _ Hp). cbn [bind].
  destruct (is_some (own_property data n)) eqn:En; [|reflexivity].
  destruct Hq as [-> | Hq]; [rewrite Hmiss in En; discriminate|].
  apply IH; [|exact Hq]. intros n' Hn'. apply Hd. right. exact Hn'.
Qed.

(** With a schema whose [required] names are all declared, data that lacks
    one of them gets [false]: nothing is thrown, and no property is
    validated. *)
Theorem missing_required_is_false R data schema props names q :
  type schema = JSString "object" ->
  properties schema = Some props ->
  lookup "hasOwnProperty" props = None ->
  required schema = Some names ->
  (forall n, In n names -> is_some (lookup n props) = true) ->
  In q names ->
  plain data = true ->
  own_property data q = None ->
  validate R data schema = Return (JSBoolean false).
Proof.
  intros Ht Hprops Hh Hr Hd Hq Hp Hmiss.
  rewrite (validate_object _ _ _ Ht). unfold validateObject.
  destruct (strict_equals data JSNull || negb (typeof data =? "object")); [reflexivity|].
  rewrite Hprops.
  destruct (List.length (map fst props) <? List.length (Object_keys data))%nat;
    [reflexivity|].
  unfold validateRequired. rewrite Hr, Hprops.
  rewrite (validateRequired_loop_missing _ _ _ q Hp Hh Hd Hq Hmiss). reflexivity.
Qed.

Lemma missing_required_is_false_witness :
  validate no_RegExp (JSObject 0 [("a", JSString "x")])
    (JSONSchemaObject [("a", string_schema); ("b", multipleOf_schema 0)] (Some ["a"; "b"]))
  = Return (JSBoolean false).
Proof.
  apply (missing_required_is_false no_RegExp _ _
           [("a", string_schema); ("b", multipleOf_schema 0)] ["a"; "b"] "b");
    try reflexivity.
  - intros n [<- | [<- | []]]; reflexivity.
  - right. left. reflexivity.
Defined.

Lemma validateRequired_present data schema props :
  plain data = true ->
  properties schema = Some props ->
  lookup "hasOwnProperty" props = None ->
  required_present data props (required schema) ->
  validateRequired data schema = Return true.
Proof.
  intros Hp Hprops Hh Hr. unfold validateRequired.
  destruct (required schema) as [names|]; [|reflexivity]. rewrite Hprops.
  cbn [required_present] in Hr.
  induction names as [|n names IH]; cbn [validateRequired_loop]; [reflexivity|].
  destruct (Hr n (or_introl eq_refl)) as [H1 H2].
  rewrite (properties_hasOwnProperty_plain _ _ Hh), H1. cbn [bind negb].
  rewrite (data_hasOwnProperty_plain _ _ Hp), H2. cbn [bind].
  apply IH. intros q Hq. apply Hr. right. exact Hq.
Qed.

Lemma validateObject_loop_prefix R data all before rest :
  plain data = true ->
  lookup "hasOwnProperty" all = None ->
  Forall (property_passes R data) before ->
  validateObject_loop (validate R) data all (before ++ rest)
  = validateObject_loop (validate R) data all rest.
Proof.
  intros Hp Hh Hb. induction Hb as [|[k s] before Hks _ IH];
    cbn [app validateObject_loop]; [reflexivity|].
  rewrite (properties_hasOwnProperty_plain _ _ Hh). cbn [bind].
  destruct (is_some (lookup k all)); cbn [bind]; [|exact IH].
  rewrite (data_hasOwnProperty_plain _ _ Hp). cbn [bind].
  destruct (is_some (own_property data k)) eqn:Ek; [|exact IH].
  unfold property_passes in Hks. cbn [fst snd] in Hks.
  rewrite (Hks Ek). cbn [bind ToBoolean negb]. exact IH.
Qed.

(** The declared properties are validated in enumeration order, each only
    if the data has it, and the first one that is not valid decides.  For a
    plain non-null object with no more keys than declared and every required
    property present: if every declared property that is present is valid,
    the object is valid, so optional properties may be left out; and if the
    first present property that is not valid gets [false] (or [undefined]),
    the object gets [false]. *)
Theorem object_first_invalid_property_decides R data schema props :
  type schema = JSString "object" ->
  properties schema = Some props ->
  lookup "hasOwnProperty" props = None ->
  plain data = true ->
  is_object data = true ->
  List.length (Object_keys data) <= List.length props ->
  required_present data props (required schema) ->
  (Forall (property_passes R data) props ->
   validate R data schema = Return (JSBoolean true))
  /\ (forall before k s after r,
        props = before ++ (k, s) :: after ->
        Forall (property_passes R data) before ->
        is_some (own_property data k) = true ->
        validate R (get data k) s = Return r -> ToBoolean r = false ->
        validate R data schema = Return (JSBoolean false)).
Proof.
  intros Ht Hprops Hh Hp Hobj Hcount Hreq.
  assert (E : validate R data schema
              = boolean (validateObject_loop (validate R) data props props)).
  { rewrite (validate_object _ _ _ Ht).
    rewrite (validateObject_reaches_required _ _ _ _ Hobj Hprops Hcount).
    rewrite (validateRequired_present _ _ _ Hp Hprops Hh Hreq). reflexivity. }
  rewrite E. split.
  - intros Hall. rewrite <- (app_nil_r props) at 2.
    rewrite (validateObject_loop_prefix _ _ _ _ [] Hp Hh Hall). reflexivity.
  - intros before k s after r Hsplit Hb Hk Hv Hr.
    rewrite Hsplit at 2.
    rewrite (validateObject_loop_prefix _ _ _ _ _ Hp Hh Hb).
    cbn [validateObject_loop].
    rewrite (properties_hasOwnProperty_plain _ _ Hh).
    rewrite (In_lookup k s props)
      by (rewrite Hsplit; apply in_or_app; right; left; reflexivity).
    cbn [bind]. rewrite (data_hasOwnProperty_plain _ _ Hp), Hk. cbn [bind].
    rewrite Hv. cbn [bind]. rewrite Hr. reflexivity.
Qed.

Lemma object_first_invalid_property_decides_witness :
  validate no_RegExp (JSObject 0 [("b", JSNumber 2)])
    (JSONSchemaObject [("a", multipleOf_schema 0); ("b", integer_schema)] (Some ["b"]))
  = Return (JSBoolean true)
  /\ validate no_RegExp (JSObject 0 [("b", JSNumber 2.5)])
       (JSONSchemaObject [("a", multipleOf_schema 0); ("b", integer_schema)] (Some ["b"]))
     = Return (JSBoolean false).
Proof.
  split.
  - pose proof (object_first_invalid_property_decides no_RegExp
                  (JSObject 0 [("b", JSNumber 2)])
                  (JSONSchemaObject [("a", multipleOf_schema 0); ("b", integer_schema)]
                     (Some ["b"]))
                  [("a", multipleOf_schema 0); ("b", integer_schema)]
                  eq_refl eq_refl eq_refl eq_refl eq_refl) as H.
    destruct H as [H _].
    + simpl. lia.
    + intros q [<- | []]. split; reflexivity.
    + apply H. repeat constructor; intros E; try discriminate E; reflexivity.
  - pose proof (object_first_invalid_property_decides no_RegExp
                  (JSObject 0 [("b", JSNumber 2.5)])
                  (JSONSchemaObject [("a", multipleOf_schema 0); ("b", integer_schema)]
                     (Some ["b"]))
                  [("a", multipleOf_schema 0); ("b", integer_schema)]
                  eq_refl eq_refl eq_refl eq_refl eq_refl) as H.
    destruct H as [_ H].
    + simpl. lia.
    + intros q [<- | []]. split; reflexivity.
    + apply (H [("a", multipleOf_schema 0)] "b" integer_schema [] (JSBoolean false));
        try reflexivity.
      repeat constructor; intros E; discriminate E.
Defined.

(** * Properties of the selector *)

Module SelectorFacts.
Import Selector.

(** The factory returns a backend in every host: nothing thrown inside the
    [try] block leaves the call. *)
Lemma localDatabaseFactory_returns host prefix :
  exists selection, localDatabaseFactory host prefix = Return selection.
Proof.
  unfold localDatabaseFactory.
  destruct (try_block host prefix) as [[selection|]|e]; eexists; reflexivity.
Qed.

(** When [indexedDB.open] throws, the [catch] leads to the last [return], not
    to the [else if]: the mock is selected although [localStorage] is there. *)
Lemma open_throws_skips_localStorage :
  localStorage host_open_throws = Return true
  /\ localDatabaseFactory host_open_throws None
     = Return {| database := MockLocalDatabase; request := None |}.
Proof. split; reflexivity. Qed.

(** When the request fails later, the factory has already returned the
    IndexedDB backend, and the error handler throws from the event loop. *)
Lemma open_fails_later_keeps_indexedDB :
  exists r,
    localDatabaseFactory host_open_fails None
    = Return {| database := IndexedDBDatabase None; request := Some r |}
    /\ deliver r = Throw (Error "denied").
Proof. eexists. split; reflexivity. Qed.

(** C1, as the code has it.  In a host that exposes [indexedDB], when
    opening the test database throws, the factory swallows the error and
    returns the mock backend, with no request left pending, whether or not
    [localStorage] is available; and the call to the factory throws in no
    host. *)
Theorem probe_throw_selects_mock host prefix :
  (exists selection, localDatabaseFactory host prefix = Return selection)
  /\ (forall e,
        isPlatformBrowser host = true ->
        indexedDB host = Return true ->
        indexedDB_open host "testStorage" = Throw e ->
        localDatabaseFactory host prefix
        = Return {| database := MockLocalDatabase; request := None |}).
Proof.
  split; [apply localDatabaseFactory_returns|].
  intros e Hb Hi Ho. unfold localDatabaseFactory, try_block, and_also.
  rewrite Hb, Hi. cbn [bind]. rewrite Ho. reflexivity.
Qed.

Lemma probe_throw_selects_mock_witness :
  localDatabaseFactory host_open_throws (Some "app")
  = Return {| database := MockLocalDatabase; request := None |}.
Proof.
  apply (proj2 (probe_throw_selects_mock host_open_throws (Some "app"))
           (Error "The operation is insecure.")); reflexivity.
Defined.

(** The three outcomes of the factory, read off the host: the IndexedDB
    backend exactly when the first branch is taken and completes, the
    localStorage backend exactly when the second is taken, the mock in every
    other case (outside a browser, without either capability, or when
    anything throws); the selected backend carries the prefix it was given;
    and a request is left open exactly when the IndexedDB backend is
    selected. *)
Theorem selection_by_capabilities host prefix :
  exists selection,
    localDatabaseFactory host prefix = Return selection
    /\ (database selection = IndexedDBDatabase prefix <-> indexedDB_usable host)
    /\ (database selection = LocalStorageDatabase prefix <-> localStorage_usable host)
    /\ (database selection = MockLocalDatabase
        <-> ~ indexedDB_usable host /\ ~ localStorage_usable host)
    /\ (request selection <> None <-> indexedDB_usable host).
Proof.
  unfold indexedDB_usable, localStorage_usable, localDatabaseFactory, try_block, and_also.
  destruct host as [browser idb open ls]. cbn [isPlatformBrowser indexedDB indexedDB_open
    localStorage].
  destruct browser; cbn [bind];
    [destruct idb as [[|]|e]; cbn [bind];
       [destruct (open "testStorage") as [event|e]; cbn [bind]
       |destruct ls as [[|]|e]; cbn [bind]
       |]
    |];
    eexists; (split; [reflexivity|]); cbn [database request];
    repeat split; intros;
    try solve
      [ congruence
      | eauto
      | let H := fresh in intros H; decompose record H; congruence
      | match goal with
        | H : _ /\ _ |- _ => decompose record H; congruence
        end
      | exfalso;
        match goal with
        | H : ~ _ /\ ~ _ |- _ =>
            destruct H as [H1 H2];
            solve [apply H1; repeat split; eauto | apply H2; repeat split; eauto]
        end
      | exfalso;
        match goal with
        | H : ~ _ |- _ => solve [apply H; repeat split; eauto]
        end ].
Qed.

(** What becomes of the test database: when the request succeeds, the
    handler the factory has set deletes "testStorage"; when it fails, the
    IndexedDB backend is selected all the same, and the handler throws the
    request's error message from the event loop, where the [try] of the
    factory does not reach. *)
Theorem probe_request_outcome host prefix event :
  isPlatformBrowser host = true ->
  indexedDB host = Return true ->
  indexedDB_open host "testStorage" = Return event ->
  exists r,
    localDatabaseFactory host prefix
    = Return {| database := IndexedDBDatabase prefix; request := Some r |}
    /\ deliver r = match event with
                   | success => Return [deleteDatabase "testStorage"]
                   | error message => Throw (Error message)
                   end.
Proof.
  intros Hb Hi Ho. unfold localDatabaseFactory, try_block, and_also.
  rewrite Hb, Hi. cbn [bind]. rewrite Ho. cbn [bind].
  eexists. split; [reflexivity|].
  unfold deliver. cbn [fires onsuccess onerror]. destruct event; reflexivity.
Qed.

Lemma probe_request_outcome_witness :
  exists r,
    localDatabaseFactory host_open_fails (Some "app")
    = Return {| database := IndexedDBDatabase (Some "app"); request := Some r |}
    /\ deliver r = Throw (Error "denied").
Proof.
  apply (probe_request_outcome host_open_fails (Some "app") (error "denied"));
    reflexivity.
Defined.

End SelectorFacts.
